(** * ppt_to_pdf_lo.py: batch conversion of PPT/PPTX files to PDF

    A shallow embedding of [src/ppt_to_pdf_lo.py] and the properties of its
    four functions [find_soffice], [collect_files], [convert_file] and [main].

    The script talks to the operating system all the time: it probes the
    file system, searches the executable search path, spawns LibreOffice and
    prints.  The embedding threads a [World] (operating-system state plus the
    chronological trace of what the run did) through a small
    state-and-exception monad.  What the operating system and the external
    program answer is left open: it is a [Platform] of oracles, and every
    theorem holds for all of them.

    Exceptions are modelled where the script raises or handles them:
    [sys.exit], the [FileNotFoundError] of [find_soffice] and whatever the
    [try] block of [convert_file] can raise.  The library calls the script
    does not guard ([print], the probes of the file system, [glob],
    [expanduser] and [resolve]) are taken to return normally. *)

From Stdlib Require Import String Ascii List Bool Arith ZArith QArith Lia.
Import ListNotations.
Set Warnings "-register-all".
Local Close Scope Q_scope.
Local Open Scope nat_scope.
Local Open Scope string_scope.
Local Open Scope list_scope.

(* ===================================================================== *)
(** ** Python values used by the script *)
(* ===================================================================== *)

Module Py.

(** Truth value of a [str]: the empty string is false. *)
Definition truthy (s : string) : bool := negb (s =? "").

(** Truth value of an [Optional[str]]: [None] and [""] are false. *)
Definition truthy_opt (o : option string) : bool :=
  match o with
  | None => false
  | Some s => truthy s
  end.

(** [a or b] on strings. *)
Definition or_str (a b : string) : string := if truthy a then a else b.

(** [a or b] on optional strings. *)
Definition or_opt (a b : option string) : option string :=
  if truthy_opt a then a else b.

(** One character of [str.lower()].  Strings are byte strings here; bytes
    above 127 (the UTF-8 encoding of a non-ASCII character) are kept, and no
    non-ASCII character lowers to an ASCII one that occurs in ".ppt" or
    ".pptx", so the membership test of [collect_files] is not affected. *)
Definition lower_ascii (c : ascii) : ascii :=
  let n := nat_of_ascii c in
  if (65 <=? n)%nat && (n <=? 90)%nat then ascii_of_nat (n + 32) else c.

Fixpoint lower (s : string) : string :=
  match s with
  | EmptyString => EmptyString
  | String c s' => String (lower_ascii c) (lower s')
  end.


(** [len(s)] as a Python integer. *)
Definition len (s : string) : Z := Z.of_nat (String.length s).

(** [s.rfind(c)]: index of the last occurrence of [c], or [-1]. *)
Fixpoint rfind_from (c : ascii) (s : string) (i last : Z) : Z :=
  match s with
  | EmptyString => last
  | String a s' => rfind_from c s' (i + 1)%Z (if Ascii.eqb a c then i else last)
  end.

Definition rfind (c : ascii) (s : string) : Z := rfind_from c s 0%Z (-1)%Z.

(** [s[:n]] and [s[n:]] for [0 <= n]. *)
Fixpoint take (n : nat) (s : string) : string :=
  match n, s with
  | S n', String c s' => String c (take n' s')
  | _, _ => EmptyString
  end.

Fixpoint drop (n : nat) (s : string) : string :=
  match n, s with
  | S n', String _ s' => drop n' s'
  | _, _ => s
  end.

(** The white space of [str.strip()]: the code points [str.isspace()]
    accepts (U+0009..000D, U+001C..0020, U+0085, U+00A0, U+1680,
    U+2000..200A, U+2028, U+2029, U+202F, U+205F, U+3000), each as its
    UTF-8 bytes.  The text the script reads from the process is decoded
    text, held here as its UTF-8 encoding. *)
Definition utf8 (bytes : list nat) : string :=
  string_of_list_ascii (map ascii_of_nat bytes).

Definition whitespace : list string :=
  map utf8
    [[9]; [10]; [11]; [12]; [13]; [28]; [29]; [30]; [31]; [32];
     [194; 133]; [194; 160]; [225; 154; 128];
     [226; 128; 128]; [226; 128; 129]; [226; 128; 130]; [226; 128; 131];
     [226; 128; 132]; [226; 128; 133]; [226; 128; 134]; [226; 128; 135];
     [226; 128; 136]; [226; 128; 137]; [226; 128; 138];
     [226; 128; 168]; [226; 128; 169]; [226; 128; 175];
     [226; 129; 159]; [227; 128; 128]].

(** [s] without the white-space character it starts with, if it starts
    with one of [ws]. *)
Fixpoint strip_one (ws : list string) (s : string) : option string :=
  match ws with
  | [] => None
  | w :: ws' =>
      if String.prefix w s then Some (drop (String.length w) s)
      else strip_one ws' s
  end.

(** [s.lstrip()]: leading white space removed, character by character
    ([n] bounds the number of characters). *)
Fixpoint lstrip_upto (n : nat) (s : string) : string :=
  match n with
  | 0 => s
  | S n' =>
      match strip_one whitespace s with
      | Some r => lstrip_upto n' r
      | None => s
      end
  end.

Definition lstrip (s : string) : string := lstrip_upto (String.length s) s.

(** [s.rstrip()]: cut where only white space follows. *)
Fixpoint rstrip (s : string) : string :=
  match s with
  | EmptyString => EmptyString
  | String c s' =>
      if lstrip s =? "" then EmptyString else String c (rstrip s')
  end.

(** [s.strip()] *)
Definition strip (s : string) : string := rstrip (lstrip s).

(** [c in s] for a one-character [c]. *)
Fixpoint contains (c : ascii) (s : string) : bool :=
  match s with
  | EmptyString => false
  | String a s' => Ascii.eqb a c || contains c s'
  end.

(** [s in t] for a tuple [t] of strings. *)
Definition in_tuple (s : string) (t : list string) : bool :=
  existsb (String.eqb s) t.

End Py.

(* ===================================================================== *)
(** ** Exceptions *)
(* ===================================================================== *)

(** The classes of [Exception] the script can meet.  [FileNotFoundError] is
    the one [main] catches by name; the others are only ever caught by
    [except Exception]. *)
Inductive exc_class : Type :=
| FileNotFoundError
| PermissionError
| OSError
| ValueError
| UnicodeDecodeError.

(** An instance of [Exception]; [exc_text] is what [str(e)] gives. *)
Record Exception : Type := mkException {
  exc_cls : exc_class;
  exc_text : string
}.

(** What a [raise] can carry: [SystemExit] (raised by [sys.exit], a
    [BaseException] that [except Exception] does not catch) or an
    [Exception]. *)
Inductive BaseException : Type :=
| SystemExit (code : Z)
| Exc (e : Exception).

Definition is_FileNotFoundError (e : Exception) : bool :=
  match exc_cls e with
  | FileNotFoundError => true
  | _ => false
  end.

(* ===================================================================== *)
(** ** pathlib paths *)
(* ===================================================================== *)

(** A path is its anchor (absolute or not) and its components.  Symbolic
    links and [".."] components are outside the model. *)
Record Path : Type := mkPath {
  absolute : bool;
  parts : list string
}.

Definition Path_eq_dec (p q : Path) : {p = q} + {p <> q}.
Proof.
  decide equality.
  - apply (list_eq_dec string_dec).
  - apply bool_dec.
Defined.

Module PurePath.

(** [p.name]: the final component, or [""] when there is none. *)
Definition name (p : Path) : string := last (parts p) "".

(** [p.parent]: the path without its final component (itself when it has
    no component). *)
Definition parent (p : Path) : Path :=
  mkPath (absolute p) (removelast (parts p)).

(** [p / n]: what [glob] builds for the entry named [n] of directory [p]. *)
Definition child (p : Path) (n : string) : Path :=
  mkPath (absolute p) (parts p ++ [n]).

(** [p / n1 / ... / nk]. *)
Definition descend (p : Path) (ns : list string) : Path :=
  mkPath (absolute p) (parts p ++ ns).

(** [p.suffix]:
<<
    name = self.name
    i = name.rfind('.')
    if 0 < i < len(name) - 1: return name[i:]
    else: return ''
>> *)
Definition suffix_of_name (nm : string) : string :=
  let i := Py.rfind "." nm in
  if ((0 <? i) && (i <? Py.len nm - 1))%Z then Py.drop (Z.to_nat i) nm else "".

Definition suffix (p : Path) : string := suffix_of_name (name p).

(** The name with its suffix replaced, as [with_suffix] computes it:
<<
    old_suffix = self.suffix
    if not old_suffix: name = name + suffix
    else: name = name[:-len(old_suffix)] + suffix
>> *)
Definition stem_of_name (nm : string) : string :=
  let old_suffix := suffix_of_name nm in
  if Py.truthy old_suffix
  then Py.take (String.length nm - String.length old_suffix) nm
  else nm.

(** [p.with_suffix(suffix)]; [repr] renders the path for the error text.
    The three [ValueError]s are the library's: a separator in the suffix, a
    suffix that does not start with a dot or is a lone dot, an empty name. *)
Definition with_suffix (repr : Path -> string) (p : Path) (sfx : string)
  : Exception + Path :=
  if Py.contains "/" sfx then
    inl (mkException ValueError ("Invalid suffix " ++ sfx)%string)
  else if (Py.truthy sfx && negb (String.prefix "." sfx)) || (sfx =? ".") then
    inl (mkException ValueError ("Invalid suffix " ++ sfx)%string)
  else if negb (Py.truthy (name p)) then
    inl (mkException ValueError (repr p ++ " has an empty name")%string)
  else
    inr (mkPath (absolute p)
                (removelast (parts p) ++ [(stem_of_name (name p) ++ sfx)%string])).

End PurePath.

(* ===================================================================== *)
(** ** The file system *)
(* ===================================================================== *)

(** A directory tree.  A directory lists its entries in the order the
    operating system yields them. *)
Inductive node : Type :=
| File
| Dir (entries : list (string * node)).

(** Structural induction that also covers the entries of a directory. *)
Section node_induction.

Variable P : node -> Prop.
Hypothesis P_File : P File.
Hypothesis P_Dir : forall es, Forall (fun e => P (snd e)) es -> P (Dir es).

Fixpoint node_rect_entries (n : node) : P n :=
  match n with
  | File => P_File
  | Dir es =>
      P_Dir es
        ((fix all (l : list (string * node)) : Forall (fun e => P (snd e)) l :=
            match l with
            | [] => Forall_nil _
            | e :: l' => Forall_cons e (node_rect_entries (snd e)) (all l')
            end) es)
  end.

End node_induction.

(** The entry named [n] of a listing (the first one, should a listing
    repeat a name). *)
Fixpoint entry (n : string) (es : list (string * node)) : option node :=
  match es with
  | [] => None
  | (m, c) :: es' => if String.eqb m n then Some c else entry n es'
  end.

(** The node reached from [nd] along the components [ps]. *)
Fixpoint lookup (nd : node) (ps : list string) : option node :=
  match ps with
  | [] => Some nd
  | p :: ps' =>
      match nd with
      | File => None
      | Dir es =>
          match entry p es with
          | Some c => lookup c ps'
          | None => None
          end
      end
  end.

(** Every path below directory node [nd], whose own path is [prefix]:
    the entries of [nd], then what lies below each entry, in listing order
    (the order of [Path.rglob("*")]: a pre-order walk over the
    directories, each one listed in full). *)
Fixpoint below (prefix : Path) (nd : node) : list Path :=
  match nd with
  | File => []
  | Dir es =>
      map (fun e => PurePath.child prefix (fst e)) es ++
      flat_map (fun e => below (PurePath.child prefix (fst e)) (snd e)) es
  end.

(** The state of the operating system the script can observe: the tree
    under the root directory, the working directory of the process and the
    clock read by [time.time()]. *)
Record OS : Type := mkOS {
  fs : node;
  cwd : list string;
  clock : Q
}.

Module Fs.

(** Components of [p] from the root directory. *)
Definition locate (os : OS) (p : Path) : list string :=
  if absolute p then parts p else cwd os ++ parts p.

Definition stat (os : OS) (p : Path) : option node :=
  lookup (fs os) (locate os p).

(** [p.exists()] *)
Definition exists_ (os : OS) (p : Path) : bool :=
  match stat os p with
  | Some _ => true
  | None => false
  end.

(** [p.is_file()] *)
Definition is_file (os : OS) (p : Path) : bool :=
  match stat os p with
  | Some File => true
  | _ => false
  end.

(** [p.is_dir()] *)
Definition is_dir (os : OS) (p : Path) : bool :=
  match stat os p with
  | Some (Dir _) => true
  | _ => false
  end.

(** [root.glob("*")]: the entries of [root] in listing order; nothing when
    [root] is not a directory. *)
Definition glob (os : OS) (root : Path) : list Path :=
  match stat os root with
  | Some (Dir es) => map (fun e => PurePath.child root (fst e)) es
  | _ => []
  end.

(** [root.rglob("*")]: everything below [root]; a path is yielded once
    (the library keeps a set of the paths it has yielded). *)
Definition rglob (os : OS) (root : Path) : list Path :=
  match stat os root with
  | Some (Dir es) => nodup Path_eq_dec (below root (Dir es))
  | _ => []
  end.

End Fs.

(* ===================================================================== *)
(** ** The platform: what the script asks of its environment *)
(* ===================================================================== *)

(** [subprocess.CompletedProcess] with [text=True] and both pipes captured. *)
Record CompletedProcess : Type := mkCompleted {
  returncode : Z;
  stdout : string;
  stderr : string
}.

(** [subprocess.run] either returns once the child has finished or raises
    (the executable is missing or not executable, its output does not
    decode, ...). *)
Inductive run_result : Type :=
| Completed (res : CompletedProcess)
| Launch_failed (e : Exception).

(** Everything the script takes from the interpreter's platform and from the
    external program.  Nothing is assumed about the answers. *)
Record Platform : Type := mkPlatform {
  (** [Path(s)] *)
  parse_path : string -> Path;
  (** [str(p)] *)
  path_str : Path -> string;
  (** [repr(p)] *)
  path_repr : Path -> string;
  (** [p.expanduser()] *)
  expanduser : OS -> Path -> Path;
  (** [p.resolve()] *)
  resolve : OS -> Path -> Path;
  (** [shutil.which(name)] *)
  shutil_which : OS -> string -> option string;
  (** [subprocess.run(cmd, stdout=PIPE, stderr=PIPE, text=True)]: the
      result, and the state the child leaves the operating system in. *)
  subprocess_run : OS -> list string -> run_result * OS
}.

(* ===================================================================== *)
(** ** Worlds, traces and the monad of the script *)
(* ===================================================================== *)

Inductive stream : Type := Stdout | Stderr.

(** The lines the script prints, by the [print] call that writes them. *)
Inductive message : Type :=
(** [f"[!] Provided soffice path not found: {user_path}"] *)
| Msg_provided_not_found (user_path : string)
(** [f"[x] Folder not found or not a directory: {root}"] *)
| Msg_folder_not_found (root : Path)
(** [f"[x] {e}"] *)
| Msg_error (text : string)
(** [f"Found {total} PPT/PPTX file(s) in: {root} (recursive={recursive})"] *)
| Msg_found (total : nat) (root : Path) (recursive : bool)
(** [f"[{i}/{total}] Converting: {f.name} ..."], no newline *)
| Msg_converting (i total : nat) (name : string)
(** the check mark *)
| Msg_ok
(** the cross mark *)
| Msg_failed
(** [f"    -> {info}"] *)
| Msg_info (text : string)
(** ["=" * 48] *)
| Msg_rule
(** [f"Done. Success={ok} | Failed={fail} | Total={total} | Time={dt:.1f}s"] *)
| Msg_done (ok fail total : nat) (dt : Q).

(** Entry into one of the script's functions, with its arguments.  The
    model records it so that the calls of a run can be counted. *)
Inductive call : Type :=
| Call_find_soffice (user_path : option string)
| Call_collect_files (root : Path) (recursive : bool)
| Call_convert_file (soffice : string) (fpath : Path).

(** What a run does, in the order it does it. *)
Inductive event : Type :=
| Ev_call (c : call)
| Ev_spawn (cmd : list string)
| Ev_print (s : stream) (m : message).

Record World : Type := mkWorld {
  os : OS;
  trace : list event
}.

(** A computation ends with a value or with a raised exception; the world
    it has reached is kept either way. *)
Inductive result (A : Type) : Type :=
| Return (a : A)
| Raise (e : BaseException).
Arguments Return {A} a.
Arguments Raise {A} e.

Definition M (A : Type) : Type := World -> result A * World.

Definition ret {A} (a : A) : M A := fun w => (Return a, w).

Definition bind {A B} (m : M A) (k : A -> M B) : M B :=
  fun w =>
    match m w with
    | (Return a, w') => k a w'
    | (Raise e, w') => (Raise e, w')
    end.

Definition raise {A} (e : BaseException) : M A := fun w => (Raise e, w).

Declare Scope py_scope.
Delimit Scope py_scope with py.
Notation "x <- m ;; k" := (bind m (fun x => k))
  (at level 61, m at next level, right associativity) : py_scope.
Notation "m ;; k" := (bind m (fun _ => k))
  (at level 61, right associativity) : py_scope.
Local Open Scope py_scope.

(** [try: body  except Exception as e: handler(e)] restricted to the
    exceptions [catches] accepts; [SystemExit] is never caught. *)
Definition try_except {A} (body : M A) (catches : Exception -> bool)
                      (handler : Exception -> M A) : M A :=
  fun w =>
    match body w with
    | (Raise (Exc e), w') =>
        if catches e then handler e w' else (Raise (Exc e), w')
    | r => r
    end.

Definition get_os : M OS := fun w => (Return (os w), w).

Definition emit (e : event) : M unit :=
  fun w => (Return tt, mkWorld (os w) (trace w ++ [e])).

(** [print(m)] and [print(m, file=sys.stderr)] *)
Definition print (s : stream) (m : message) : M unit := emit (Ev_print s m).

(** [sys.exit(code)] *)
Definition sys_exit {A} (code : Z) : M A := raise (SystemExit code).

(** A library call that can raise. *)
Definition lift {A} (r : Exception + A) : M A :=
  match r with
  | inl e => raise (Exc e)
  | inr a => ret a
  end.

(** [time.time()] *)
Definition time_time : M Q := fun w => (Return (clock (os w)), w).

(** The exit status of the interpreter: 0 when [main] returns, the
    argument of [sys.exit], 1 for an exception nobody caught. *)
Definition exit_code {A} (r : result A) : Z :=
  match r with
  | Return _ => 0
  | Raise (SystemExit c) => c
  | Raise (Exc _) => 1
  end.

(* ===================================================================== *)
(** ** The script *)
(* ===================================================================== *)

Section Script.

Context (P : Platform).

(** [subprocess.run]: the child runs, the operating system changes. *)
Definition run (cmd : list string) : M CompletedProcess :=
  fun w =>
    let w1 := mkWorld (os w) (trace w ++ [Ev_spawn cmd]) in
    match subprocess_run P (os w) cmd with
    | (Completed res, os') => (Return res, mkWorld os' (trace w1))
    | (Launch_failed e, os') => (Raise (Exc e), mkWorld os' (trace w1))
    end.

Definition common_win : Path :=
  parse_path P "C:\Program Files\LibreOffice\program\soffice.exe".

Definition not_found_text : string :=
  "LibreOffice 'soffice' executable not found. Install LibreOffice or pass --soffice PATH".

(** Steps 2 to 4 of [find_soffice] (lines 28-39). *)
Definition find_soffice_fallback : M string :=
  o <- get_os ;;
  if Fs.exists_ o common_win then ret (path_str P common_win)
  else
    let found := Py.or_opt (shutil_which P o "soffice")
                           (shutil_which P o "soffice.exe") in
    match found with
    | Some f => if Py.truthy f then ret f
                else raise (Exc (mkException FileNotFoundError not_found_text))
    | None => raise (Exc (mkException FileNotFoundError not_found_text))
    end.

(** [find_soffice(user_path)] (lines 21-39). *)
Definition find_soffice (user_path : option string) : M string :=
  emit (Ev_call (Call_find_soffice user_path)) ;;
  match user_path with
  | Some up =>
      if Py.truthy up then
        let p := parse_path P up in
        o <- get_os ;;
        if Fs.exists_ o p then ret (path_str P p)
        else
          print Stderr (Msg_provided_not_found up) ;;
          find_soffice_fallback
      else find_soffice_fallback
  | None => find_soffice_fallback
  end.

Definition exts : list string := [".ppt"; ".pptx"].

(** The list comprehensions of [collect_files] (lines 44 and 46). *)
Definition collect (o : OS) (root : Path) (recursive : bool) : list Path :=
  let keep p :=
    Fs.is_file o p && Py.in_tuple (Py.lower (PurePath.suffix p)) exts in
  if recursive then filter keep (Fs.rglob o root)
  else filter keep (Fs.glob o root).

(** [collect_files(root, recursive)] (lines 41-46). *)
Definition collect_files (root : Path) (recursive : bool) : M (list Path) :=
  emit (Ev_call (Call_collect_files root recursive)) ;;
  o <- get_os ;;
  ret (collect o root recursive).

(** The command line of line 50. *)
Definition command (soffice : string) (fpath : Path) : list string :=
  let outdir := path_str P (PurePath.parent fpath) in
  [soffice; "--headless"; "--convert-to"; "pdf"; "--outdir"; outdir;
   path_str P fpath].

(** [convert_file(soffice, fpath)] (lines 48-59). *)
Definition convert_file (soffice : string) (fpath : Path) : M (bool * string) :=
  emit (Ev_call (Call_convert_file soffice fpath)) ;;
  let cmd := command soffice fpath in
  try_except
    (res <- run cmd ;;
     out_pdf <- lift (PurePath.with_suffix (path_repr P) fpath ".pdf") ;;
     o <- get_os ;;
     let ok := Fs.exists_ o out_pdf in
     let msg := Py.or_str (Py.strip (stdout res)) (Py.strip (stderr res)) in
     ret (ok, msg))
    (fun _ => true)
    (fun e => ret (false, exc_text e)).

(** The parsed command line ([argparse.Namespace]). *)
Record Args : Type := mkArgs {
  folder : string;
  recursive : bool;
  soffice : option string
}.

(** The loop of lines 90-99 over the files still to convert; [i] is the
    index [enumerate(files, 1)] gives the first of them. *)
Fixpoint convert_each (exe : string) (total : nat) (i : nat)
                      (files : list Path) (ok fail : nat) : M (nat * nat) :=
  match files with
  | [] => ret (ok, fail)
  | f :: rest =>
      print Stdout (Msg_converting i total (PurePath.name f)) ;;
      r <- convert_file exe f ;;
      if fst r then
        print Stdout Msg_ok ;;
        convert_each exe total (S i) rest (S ok) fail
      else
        print Stdout Msg_failed ;;
        print Stdout (Msg_info (snd r)) ;;
        convert_each exe total (S i) rest ok (S fail)
  end.

(** [main()] after [ap.parse_args()] (lines 70-103). *)
Definition main (args : Args) : M unit :=
  o <- get_os ;;
  let root := resolve P o (expanduser P o (parse_path P (folder args))) in
  (if negb (Fs.exists_ o root) || negb (Fs.is_dir o root) then
     print Stderr (Msg_folder_not_found root) ;;
     sys_exit 2
   else ret tt) ;;
  exe <- try_except (find_soffice (soffice args)) is_FileNotFoundError
           (fun e => print Stderr (Msg_error (exc_text e)) ;; sys_exit 3) ;;
  files <- collect_files root (recursive args) ;;
  let total := length files in
  print Stdout (Msg_found total root (recursive args)) ;;
  (if (total =? 0)%nat then sys_exit 0 else ret tt) ;;
  t0 <- time_time ;;
  counts <- convert_each exe total 1 files 0 0 ;;
  t1 <- time_time ;;
  let dt := (t1 - t0)%Q in
  print Stdout Msg_rule ;;
  print Stdout (Msg_done (fst counts) (snd counts) total dt).

End Script.

(* ===================================================================== *)
(** ** Reading a trace *)
(* ===================================================================== *)

Module Trace.

(** The function entries of a trace, in order. *)
Definition calls (evs : list event) : list call :=
  flat_map (fun e => match e with Ev_call c => [c] | _ => [] end) evs.

(** The command lines handed to [subprocess.run], in order. *)
Definition spawns (evs : list event) : list (list string) :=
  flat_map (fun e => match e with Ev_spawn cmd => [cmd] | _ => [] end) evs.

(** What was printed on stream [s], in order. *)
Definition printed (s : stream) (evs : list event) : list message :=
  flat_map (fun e =>
              match e, s with
              | Ev_print Stdout m, Stdout => [m]
              | Ev_print Stderr m, Stderr => [m]
              | _, _ => []
              end) evs.

(** The arguments of the calls of [find_soffice]: one per resolution of
    the executable. *)
Definition resolutions (evs : list event) : list (option string) :=
  flat_map (fun c => match c with Call_find_soffice u => [u] | _ => [] end)
           (calls evs).

(** The arguments of the calls of [collect_files]. *)
Definition collections (evs : list event) : list (Path * bool) :=
  flat_map (fun c => match c with Call_collect_files r b => [(r, b)] | _ => [] end)
           (calls evs).

(** The arguments of the calls of [convert_file]: one per conversion
    attempt. *)
Definition conversions (evs : list event) : list (string * Path) :=
  flat_map (fun c => match c with Call_convert_file s f => [(s, f)] | _ => [] end)
           (calls evs).

(** How many files the run marked converted, and how many failed. *)
Definition marked_ok (evs : list event) : nat :=
  length (filter (fun m => match m with Msg_ok => true | _ => false end)
                 (printed Stdout evs)).

Definition marked_failed (evs : list event) : nat :=
  length (filter (fun m => match m with Msg_failed => true | _ => false end)
                 (printed Stdout evs)).

End Trace.

(* ===================================================================== *)
(** ** What the script's functions compute *)
(* ===================================================================== *)

(** [p] lies under [root]: directly in it, or at any depth. *)
Definition within (root : Path) (recursive : bool) (p : Path) : Prop :=
  if recursive
  then exists ns, ns <> [] /\ p = PurePath.descend root ns
  else exists n, p = PurePath.child root n.

(** The extension of [p] is one of the two recognized ones, whatever the
    case of its letters. *)
Definition recognized (p : Path) : Prop :=
  Py.lower (PurePath.suffix p) = ".ppt" \/ Py.lower (PurePath.suffix p) = ".pptx".

(** The capital of a letter of the two extensions. *)
Definition capital (a : ascii) : ascii :=
  if Ascii.eqb a "p" then "P"
  else if Ascii.eqb a "t" then "T"
  else if Ascii.eqb a "x" then "X"
  else a.

(** [s] is [pattern] letter for letter, each letter small or capital. *)
Fixpoint spells (pattern s : string) : bool :=
  match pattern, s with
  | EmptyString, EmptyString => true
  | String a pattern', String c s' =>
      (Ascii.eqb c a || Ascii.eqb c (capital a)) && spells pattern' s'
  | _, _ => false
  end.

(** The extension of [p], compared case-insensitively, is one of the two
    recognized extensions ".ppt" and ".pptx". *)
Definition extension_matches (p : Path) : bool :=
  spells ".ppt" (PurePath.suffix p) || spells ".pptx" (PurePath.suffix p).

(** The characters of the two extensions. *)
Fixpoint extension_letters (pattern : string) : Prop :=
  match pattern with
  | EmptyString => True
  | String a pattern' =>
      (a = "." \/ a = "p" \/ a = "t" \/ a = "x")%char /\
      extension_letters pattern'
  end.

Section Outcomes.

Context (P : Platform).

(** The root directory [main] works on (line 70). *)
Definition root_of (o : OS) (args : Args) : Path :=
  resolve P o (expanduser P o (parse_path P (folder args))).

(** The folder check of line 71 passes. *)
Definition folder_ok (o : OS) (args : Args) : Prop :=
  Fs.exists_ o (root_of o args) = true /\ Fs.is_dir o (root_of o args) = true.

(** What [find_soffice] leaves in the trace: its entry, and the warning
    when a non-empty user path does not exist. *)
Definition find_soffice_events (o : OS) (user_path : option string)
  : list event :=
  Ev_call (Call_find_soffice user_path) ::
  match user_path with
  | Some up =>
      if Py.truthy up && negb (Fs.exists_ o (parse_path P up))
      then [Ev_print Stderr (Msg_provided_not_found up)] else []
  | None => []
  end.

(** What [convert_file] returns for [fpath] once [subprocess.run] has
    answered [rr] and left the operating system in state [o']. *)
Definition conversion_outcome (rr : run_result) (o' : OS) (fpath : Path)
  : bool * string :=
  match rr with
  | Completed res =>
      match PurePath.with_suffix (path_repr P) fpath ".pdf" with
      | inr out_pdf =>
          (Fs.exists_ o' out_pdf,
           Py.or_str (Py.strip (stdout res)) (Py.strip (stderr res)))
      | inl e => (false, exc_text e)
      end
  | Launch_failed e => (false, exc_text e)
  end.

(** The success flags of converting [files] one after the other, each
    conversion starting in the state the previous one left. *)
Fixpoint outcomes (exe : string) (files : list Path) (o : OS) : list bool :=
  match files with
  | [] => []
  | f :: rest =>
      let r := subprocess_run P o (command P exe f) in
      fst (conversion_outcome (fst r) (snd r) f) :: outcomes exe rest (snd r)
  end.

(** The state of the operating system after those conversions. *)
Fixpoint os_after (exe : string) (files : list Path) (o : OS) : OS :=
  match files with
  | [] => o
  | f :: rest => os_after exe rest (snd (subprocess_run P o (command P exe f)))
  end.

End Outcomes.

(* ===================================================================== *)
(** ** What the loop of [main] leaves in the trace *)
(* ===================================================================== *)

Module Report.

(** The progress lines of a trace: index, total and name of each
    "Converting" line, in order. *)
Definition announced (evs : list event) : list (nat * nat * string) :=
  flat_map (fun m => match m with
                     | Msg_converting i t n => [(i, t, n)]
                     | _ => []
                     end)
           (Trace.printed Stdout evs).

(** The failure details printed on the standard output, in order. *)
Definition details (evs : list event) : list string :=
  flat_map (fun m => match m with Msg_info t => [t] | _ => [] end)
           (Trace.printed Stdout evs).

(** [s] is made of white-space characters only (possibly none). *)
Inductive blank : string -> Prop :=
| blank_empty : blank ""
| blank_more (w s : string) :
    In w Py.whitespace -> blank s -> blank (w ++ s).

End Report.

Section Loop.

Context (P : Platform).

(** The events of the loop of lines 90-99 over [files], the first of which
    gets index [i], started in state [o]. *)
Fixpoint loop_events (exe : string) (total i : nat) (files : list Path)
                     (o : OS) : list event :=
  match files with
  | [] => []
  | f :: rest =>
      let r := subprocess_run P o (command P exe f) in
      let out := conversion_outcome P (fst r) (snd r) f in
      [Ev_print Stdout (Msg_converting i total (PurePath.name f));
       Ev_call (Call_convert_file exe f);
       Ev_spawn (command P exe f)] ++
      (if fst out then [Ev_print Stdout Msg_ok]
       else [Ev_print Stdout Msg_failed; Ev_print Stdout (Msg_info (snd out))]) ++
      loop_events exe total (S i) rest (snd r)
  end.

(** The messages of the conversions of [files] that fail, in order. *)
Fixpoint failure_messages (exe : string) (files : list Path) (o : OS)
  : list string :=
  match files with
  | [] => []
  | f :: rest =>
      let r := subprocess_run P o (command P exe f) in
      let out := conversion_outcome P (fst r) (snd r) f in
      (if fst out then [] else [snd out]) ++
      failure_messages exe rest (snd r)
  end.

(** The whole trace of a run that passes the folder check and resolves
    the executable. *)
Definition run_events (args : Args) (o : OS) (exe : string) : list event :=
  let root := root_of P o args in
  let files := collect o root (recursive args) in
  find_soffice_events P o (soffice args) ++
  [Ev_call (Call_collect_files root (recursive args));
   Ev_print Stdout (Msg_found (length files) root (recursive args))] ++
  match files with
  | [] => []
  | _ :: _ =>
      loop_events exe (length files) 1 files o ++
      [Ev_print Stdout Msg_rule;
       Ev_print Stdout
         (Msg_done (count_occ bool_dec (outcomes P exe files o) true)
                   (count_occ bool_dec (outcomes P exe files o) false)
                   (length files)
                   (clock (os_after P exe files o) - clock o)%Q)]
  end.

End Loop.

(* ===================================================================== *)
(** ** The resolution order of the specification *)
(* ===================================================================== *)

Section Resolution_order.

Context (P : Platform).

(** First match wins; no match is the not-found error. *)
Definition first_match (candidates : list (option string)) : result string :=
  match flat_map (fun c => match c with Some s => [s] | None => [] end)
                 candidates with
  | s :: _ => Return s
  | [] => Raise (Exc (mkException FileNotFoundError not_found_text))
  end.

(** Step 1 in the specification's words: the caller supplied a path and it
    exists on disk. *)
Definition user_candidate_claimed (o : OS) (user_path : option string)
  : option string :=
  match user_path with
  | Some up =>
      if Fs.exists_ o (parse_path P up)
      then Some (path_str P (parse_path P up)) else None
  | None => None
  end.

(** Step 1 with the guard of line 23: an empty string counts as no path. *)
Definition user_candidate (o : OS) (user_path : option string)
  : option string :=
  match user_path with
  | Some up =>
      if Py.truthy up && Fs.exists_ o (parse_path P up)
      then Some (path_str P (parse_path P up)) else None
  | None => None
  end.

(** Step 2: the well-known install location. *)
Definition install_candidate (o : OS) : option string :=
  if Fs.exists_ o (common_win P) then Some (path_str P (common_win P))
  else None.

(** Step 3: the executable search path, for one program name. *)
Definition search_candidate (o : OS) (program : string) : option string :=
  match shutil_which P o program with
  | Some f => if Py.truthy f then Some f else None
  | None => None
  end.

(** Steps 2 to 4. *)
Definition fallback_order (o : OS) : result string :=
  first_match [install_candidate o;
               search_candidate o "soffice";
               search_candidate o "soffice.exe"].

(** The order as the specification states it. *)
Definition resolution_order_claimed (o : OS) (user_path : option string)
  : result string :=
  first_match [user_candidate_claimed o user_path;
               install_candidate o;
               search_candidate o "soffice";
               search_candidate o "soffice.exe"].

(** The order with the guard on the empty string. *)
Definition resolution_order (o : OS) (user_path : option string)
  : result string :=
  first_match [user_candidate o user_path;
               install_candidate o;
               search_candidate o "soffice";
               search_candidate o "soffice.exe"].

(** No strategy resolves the executable. *)
Definition unresolvable (o : OS) (user_path : option string) : Prop :=
  user_candidate o user_path = None /\
  install_candidate o = None /\
  search_candidate o "soffice" = None /\
  search_candidate o "soffice.exe" = None.

End Resolution_order.

(* ===================================================================== *)
(** ** A POSIX platform with a stand-in for LibreOffice *)
(* ===================================================================== *)

(** A concrete platform on which the script can be run inside Rocq: POSIX
    path syntax, a search path of one directory, and an external program
    whose behaviour is chosen by the test. *)
Module Posix.

(** [s.split("/")] *)
Fixpoint split_slash (s cur : string) : list string :=
  match s with
  | EmptyString => [cur]
  | String c s' =>
      if Ascii.eqb c "/" then cur :: split_slash s' ""
      else split_slash s' (cur ++ String c "")%string
  end.

(** [Path(s)]: empty and ["."] components are dropped; [Path("")] is the
    working directory. *)
Definition parse (s : string) : Path :=
  mkPath (String.prefix "/" s)
         (filter (fun c => negb (c =? "") && negb (c =? "."))
                 (split_slash s "")).

Definition str (p : Path) : string :=
  match absolute p, parts p with
  | true, ps => ("/" ++ String.concat "/" ps)%string
  | false, [] => "."
  | false, ps => String.concat "/" ps
  end.

Definition repr (p : Path) : string := ("PosixPath('" ++ str p ++ "')")%string.

(** Creates the file at components [ps] when its directory exists. *)
Fixpoint touch (nd : node) (ps : list string) : node :=
  match ps, nd with
  | [n], Dir es =>
      match entry n es with
      | Some _ => nd
      | None => Dir (es ++ [(n, File)])
      end
  | n :: ps', Dir es =>
      Dir (map (fun e => if fst e =? n then (fst e, touch (snd e) ps') else e) es)
  | _, _ => nd
  end.

(** What the external program does when it is run. *)
Inductive behaviour : Type :=
| Converts (rc : Z)       (** writes the PDF, exits with status [rc] *)
| Writes_nothing (rc : Z) (** writes no file, exits with status [rc] *)
| Cannot_launch.          (** [subprocess.run] raises *)

Definition run_stub (b : behaviour) (o : OS) (cmd : list string)
  : run_result * OS :=
  match b with
  | Converts rc =>
      match PurePath.with_suffix repr (parse (last cmd "")) ".pdf" with
      | inr pdf =>
          (Completed (mkCompleted rc "convert: done" ""),
           mkOS (touch (fs o) (Fs.locate o pdf)) (cwd o) (clock o + 2)%Q)
      | inl _ => (Completed (mkCompleted rc "" "Error: no input"), o)
      end
  | Writes_nothing rc =>
      (Completed (mkCompleted rc "" "Error: source file could not be loaded"),
       mkOS (fs o) (cwd o) (clock o + 1)%Q)
  | Cannot_launch =>
      (Launch_failed
         (mkException PermissionError "[Errno 13] Permission denied: 'soffice'"),
       o)
  end.

(** [shutil.which] over the search path [/usr/bin]. *)
Definition which (o : OS) (program : string) : option string :=
  let p := mkPath true ["usr"; "bin"; program] in
  if Fs.is_file o p then Some (str p) else None.

Definition platform (b : behaviour) : Platform :=
  mkPlatform parse str repr
             (fun _ p => p)
             (fun o p => mkPath true (Fs.locate o p))
             which
             (run_stub b).

(** A machine with LibreOffice on the search path and a folder of
    documents: [old.pdf] is left over from an earlier run. *)
Definition docs : node :=
  Dir [("a.pptx", File); ("b.ppt", File); ("c.txt", File);
       ("old.ppt", File); ("old.pdf", File);
       ("sub", Dir [("deep", Dir [("d.PPTX", File)]); ("e.ppt", Dir [])])].

Definition machine : OS :=
  mkOS (Dir [("usr", Dir [("bin", Dir [("soffice", File)])]);
             ("home", Dir [("u", Dir [])]);
             ("docs", docs);
             ("empty", Dir [])])
       ["home"; "u"] 100%Q.

(** The same machine without LibreOffice. *)
Definition bare_machine : OS :=
  mkOS (Dir [("usr", Dir [("bin", Dir [])]);
             ("home", Dir [("u", Dir [])]);
             ("docs", docs)])
       ["home"; "u"] 100%Q.

Definition boot (o : OS) : World := mkWorld o [].

(** LibreOffice as it should be. *)
Definition office : Platform := platform (Converts 0).

(** An external program that writes the PDF and exits with status 1. *)
Definition grumpy : Platform := platform (Converts 1).

(** An external program that exits with status 0 and writes nothing. *)
Definition mute : Platform := platform (Writes_nothing 0).

(** An external program that exits with status 1 and writes nothing. *)
Definition broken : Platform := platform (Writes_nothing 1).

(** An external program that cannot be started. *)
Definition locked : Platform := platform Cannot_launch.

Definition exe : string := "/usr/bin/soffice".

Definition a_pptx : Path := mkPath true ["docs"; "a.pptx"].
Definition b_ppt : Path := mkPath true ["docs"; "b.ppt"].
Definition old_ppt : Path := mkPath true ["docs"; "old.ppt"].
Definition d_PPTX : Path := mkPath true ["docs"; "sub"; "deep"; "d.PPTX"].

End Posix.

(* ===================================================================== *)
(** ** Facts about strings and paths *)
(* ===================================================================== *)

Lemma truthy_true (s : string) : Py.truthy s = true <-> s <> "".
Proof.
  unfold Py.truthy. rewrite negb_true_iff. apply String.eqb_neq.
Qed.

Lemma truthy_false (s : string) : Py.truthy s = false <-> s = "".
Proof.
  unfold Py.truthy. rewrite negb_false_iff. apply String.eqb_eq.
Qed.

Lemma string_length_app (s t : string) :
  String.length (s ++ t) = String.length s + String.length t.
Proof. induction s as [|c s IH]; simpl; [reflexivity | now rewrite IH]. Qed.

Lemma length_drop (n : nat) (s : string) :
  String.length (Py.drop n s) = String.length s - n.
Proof.
  revert s. induction n as [|n IH]; intros [|c s]; simpl; auto.
Qed.

Lemma take_app_length (s t : string) : Py.take (String.length s) (s ++ t) = s.
Proof. induction s as [|c s IH]; simpl; [now destruct t | now rewrite IH]. Qed.

Lemma drop_app_length (s t : string) : Py.drop (String.length s) (s ++ t) = t.
Proof. induction s as [|c s IH]; simpl; [now destruct t | exact IH]. Qed.

Lemma take_nonempty (n : nat) (s : string) :
  0 < n -> s <> "" -> Py.take n s <> "".
Proof.
  destruct n as [|n]; [lia|]. destruct s as [|c s]; [congruence|].
  simpl. discriminate.
Qed.

(** Scanning a concatenation: the scan of the second part starts where
    the scan of the first ends. *)
Lemma rfind_from_app (c : ascii) (s t : string) (i last : Z) :
  Py.rfind_from c (s ++ t) i last =
  Py.rfind_from c t (i + Py.len s)%Z (Py.rfind_from c s i last).
Proof.
  revert i last. induction s as [|a s IH]; intros i last.
  - simpl. unfold Py.len. simpl. now rewrite Z.add_0_r.
  - cbn [append Py.rfind_from]. rewrite IH. f_equal.
    unfold Py.len. cbn [String.length]. lia.
Qed.

Lemma rfind_dot_pdf (s : string) : Py.rfind "." (s ++ ".pdf") = Py.len s.
Proof.
  unfold Py.rfind. rewrite rfind_from_app. reflexivity.
Qed.

(** A name that ends in ".pdf" after a non-empty stem has suffix ".pdf". *)
Lemma suffix_of_name_pdf (s : string) :
  s <> "" -> PurePath.suffix_of_name (s ++ ".pdf") = ".pdf".
Proof.
  intros Hs. unfold PurePath.suffix_of_name. rewrite rfind_dot_pdf.
  assert (Hlen : (0 < Py.len s)%Z).
  { unfold Py.len. destruct s; [congruence | simpl; lia]. }
  assert (Hcond : ((0 <? Py.len s) && (Py.len s <? Py.len (s ++ ".pdf") - 1))%Z = true).
  { apply andb_true_iff. split; apply Z.ltb_lt; [exact Hlen|].
    unfold Py.len in *. rewrite string_length_app. simpl. lia. }
  rewrite Hcond. unfold Py.len. rewrite Nat2Z.id. apply drop_app_length.
Qed.

Lemma stem_of_name_pdf (s : string) :
  s <> "" -> PurePath.stem_of_name (s ++ ".pdf") = s.
Proof.
  intros Hs. unfold PurePath.stem_of_name. rewrite (suffix_of_name_pdf s Hs).
  cbn [Py.truthy String.eqb negb]. rewrite string_length_app.
  replace (String.length s + String.length ".pdf" - String.length ".pdf")
    with (String.length s) by lia.
  apply take_app_length.
Qed.

(** The stem of a non-empty name is not empty. *)
Lemma stem_of_name_nonempty (nm : string) :
  nm <> "" -> PurePath.stem_of_name nm <> "".
Proof.
  intros Hnm. unfold PurePath.stem_of_name, PurePath.suffix_of_name.
  destruct ((0 <? Py.rfind "." nm) && (Py.rfind "." nm <? Py.len nm - 1))%Z eqn:Hc.
  - apply andb_true_iff in Hc. destruct Hc as [H0 H1].
    apply Z.ltb_lt in H0. apply Z.ltb_lt in H1. unfold Py.len in H1.
    destruct (Py.truthy (Py.drop (Z.to_nat (Py.rfind "." nm)) nm)); [|exact Hnm].
    apply take_nonempty; [|exact Hnm]. rewrite length_drop. lia.
  - exact Hnm.
Qed.

Lemma parent_child (p : Path) (n : string) :
  PurePath.parent (PurePath.child p n) = p.
Proof.
  destruct p as [a ps]. unfold PurePath.parent, PurePath.child. simpl.
  now rewrite removelast_last.
Qed.

Lemma name_child (p : Path) (n : string) :
  PurePath.name (PurePath.child p n) = n.
Proof. unfold PurePath.name, PurePath.child. simpl. apply last_last. Qed.

Lemma descend_child (p : Path) (n : string) (ns : list string) :
  PurePath.descend (PurePath.child p n) ns = PurePath.descend p (n :: ns).
Proof.
  unfold PurePath.descend, PurePath.child. simpl. now rewrite <- app_assoc.
Qed.

Lemma descend_one (p : Path) (n : string) :
  PurePath.descend p [n] = PurePath.child p n.
Proof. reflexivity. Qed.

(** [with_suffix(".pdf")] on a path with a name: the result lies in the
    same directory, keeps the stem and has suffix ".pdf". *)
Lemma with_suffix_pdf (repr : Path -> string) (p : Path) :
  PurePath.name p <> "" ->
  exists q,
    PurePath.with_suffix repr p ".pdf" = inr q /\
    PurePath.parent q = PurePath.parent p /\
    PurePath.name q = (PurePath.stem_of_name (PurePath.name p) ++ ".pdf")%string /\
    PurePath.suffix q = ".pdf" /\
    PurePath.stem_of_name (PurePath.name q) =
      PurePath.stem_of_name (PurePath.name p).
Proof.
  intros Hname.
  pose proof (stem_of_name_nonempty _ Hname) as Hstem.
  unfold PurePath.with_suffix. cbn [Py.contains Ascii.eqb Bool.eqb orb].
  cbn [Py.truthy String.eqb Ascii.eqb Bool.eqb String.prefix negb andb orb].
  apply truthy_true in Hname. rewrite Hname. cbn [negb].
  eexists. split; [reflexivity|].
  assert (Hn : PurePath.name
                 (mkPath (absolute p)
                    (removelast (parts p) ++
                     [(PurePath.stem_of_name (PurePath.name p) ++ ".pdf")%string]))
               = (PurePath.stem_of_name (PurePath.name p) ++ ".pdf")%string).
  { unfold PurePath.name at 1. cbn [parts]. apply last_last. }
  repeat split.
  - unfold PurePath.parent. cbn [absolute parts]. now rewrite removelast_last.
  - exact Hn.
  - unfold PurePath.suffix. rewrite Hn. now apply suffix_of_name_pdf.
  - rewrite Hn. now apply stem_of_name_pdf.
Qed.

(* ===================================================================== *)
(** ** Facts about the file system *)
(* ===================================================================== *)

Lemma entry_In (n : string) (es : list (string * node)) (c : node) :
  entry n es = Some c -> In (n, c) es.
Proof.
  induction es as [|[m d] es IH]; simpl; [discriminate|].
  destruct (String.eqb_spec m n) as [->|Hne].
  - intros [= ->]. now left.
  - intros H. right. now apply IH.
Qed.

Lemma In_entry (n : string) (es : list (string * node)) :
  In n (map fst es) -> exists c, entry n es = Some c.
Proof.
  induction es as [|[m d] es IH]; simpl; [contradiction|].
  destruct (String.eqb_spec m n) as [->|Hne].
  - intros _. now exists d.
  - intros [H|H]; [congruence | now apply IH].
Qed.

Lemma lookup_app (nd : node) (ps qs : list string) :
  lookup nd (ps ++ qs) =
  match lookup nd ps with
  | Some c => lookup c qs
  | None => None
  end.
Proof.
  revert nd. induction ps as [|p ps IH]; intros nd; simpl; [reflexivity|].
  destruct nd as [|es]; [reflexivity|].
  destruct (entry p es); [apply IH | reflexivity].
Qed.

Lemma lookup_File (ps : list string) (c : node) :
  lookup File ps = Some c -> ps = [].
Proof. destruct ps; simpl; [reflexivity | discriminate]. Qed.

Lemma locate_descend (o : OS) (p : Path) (ns : list string) :
  Fs.locate o (PurePath.descend p ns) = Fs.locate o p ++ ns.
Proof.
  unfold Fs.locate, PurePath.descend. simpl.
  destruct (absolute p); [reflexivity | now rewrite app_assoc].
Qed.

Lemma locate_child (o : OS) (p : Path) (n : string) :
  Fs.locate o (PurePath.child p n) = Fs.locate o p ++ [n].
Proof. apply (locate_descend o p [n]). Qed.

Lemma stat_descend (o : OS) (p : Path) (ns : list string) :
  Fs.stat o (PurePath.descend p ns) =
  match Fs.stat o p with
  | Some c => lookup c ns
  | None => None
  end.
Proof. unfold Fs.stat. rewrite locate_descend. apply lookup_app. Qed.

Lemma is_file_exists (o : OS) (p : Path) :
  Fs.is_file o p = true -> Fs.exists_ o p = true.
Proof.
  unfold Fs.is_file, Fs.exists_. destruct (Fs.stat o p); [reflexivity | discriminate].
Qed.

(** [glob("*")] yields the paths [root / n] that exist. *)
Lemma In_glob (o : OS) (root p : Path) :
  In p (Fs.glob o root) <->
  exists n, p = PurePath.child root n /\ Fs.exists_ o p = true.
Proof.
  unfold Fs.glob, Fs.exists_. split.
  - destruct (Fs.stat o root) as [[|es]|] eqn:Hroot; try contradiction.
    intros Hin. apply in_map_iff in Hin. destruct Hin as [[n c] [<- Hin]].
    exists n. split; [reflexivity|]. simpl.
    rewrite <- descend_one, stat_descend, Hroot. simpl.
    destruct (In_entry n es) as [d ->]; [|reflexivity].
    apply in_map_iff. now exists (n, c).
  - intros [n [-> Hex]]. rewrite <- descend_one, stat_descend in Hex.
    destruct (Fs.stat o root) as [[|es]|]; simpl in Hex; try discriminate.
    destruct (entry n es) as [c|] eqn:Hn; [|discriminate].
    apply in_map_iff. exists (n, c). split; [reflexivity | now apply entry_In].
Qed.

(** Every path below a node extends the node's own path. *)
Lemma below_descend (nd : node) :
  forall prefix p,
    In p (below prefix nd) ->
    exists ns, ns <> [] /\ p = PurePath.descend prefix ns.
Proof.
  induction nd as [|es IH] using node_rect_entries; intros prefix p; simpl;
    [contradiction|].
  rewrite in_app_iff, in_map_iff, in_flat_map.
  intros [[e [<- _]] | [e [He Hin]]].
  - exists [fst e]. split; [discriminate | reflexivity].
  - rewrite Forall_forall in IH.
    destruct (IH e He _ _ Hin) as [ns [_ ->]].
    exists (fst e :: ns). split; [discriminate | apply descend_child].
Qed.

(** Whatever [lookup] reaches along a non-empty list of components is
    below the node. *)
Lemma lookup_below (ns : list string) :
  forall nd prefix c,
    ns <> [] ->
    lookup nd ns = Some c ->
    In (PurePath.descend prefix ns) (below prefix nd).
Proof.
  induction ns as [|n ns IH]; intros nd prefix c Hne Hl; [congruence|].
  simpl in Hl. destruct nd as [|es]; [discriminate|].
  destruct (entry n es) as [d|] eqn:Hn; [|discriminate].
  apply entry_In in Hn. simpl. apply in_app_iff.
  destruct ns as [|m ns'].
  - left. apply in_map_iff. now exists (n, d).
  - right. apply in_flat_map. exists (n, d). split; [exact Hn|].
    simpl. rewrite <- descend_child.
    apply (IH d _ c); [discriminate | exact Hl].
Qed.

(** [rglob("*")] yields the paths [root / n1 / ... / nk], [k >= 1], that
    exist. *)
Lemma In_rglob (o : OS) (root p : Path) :
  In p (Fs.rglob o root) ->
  exists ns, ns <> [] /\ p = PurePath.descend root ns.
Proof.
  unfold Fs.rglob.
  destruct (Fs.stat o root) as [[|es]|]; try contradiction.
  rewrite nodup_In. apply below_descend.
Qed.

Lemma rglob_In (o : OS) (root : Path) (ns : list string) :
  ns <> [] ->
  Fs.exists_ o (PurePath.descend root ns) = true ->
  In (PurePath.descend root ns) (Fs.rglob o root).
Proof.
  intros Hne. unfold Fs.exists_, Fs.rglob. rewrite stat_descend.
  destruct (Fs.stat o root) as [nd|]; [|discriminate].
  destruct (lookup nd ns) as [c|] eqn:Hl; [|discriminate]. intros _.
  destruct nd as [|es].
  - apply lookup_File in Hl. congruence.
  - rewrite nodup_In. now apply (lookup_below ns (Dir es) root c).
Qed.

(** Lowering a character gives a letter of the extensions exactly when
    the character is that letter, small or capital. *)
Lemma lower_ascii_letter (a c : ascii) :
  (a = "." \/ a = "p" \/ a = "t" \/ a = "x")%char ->
  Ascii.eqb (Py.lower_ascii c) a = Ascii.eqb c a || Ascii.eqb c (capital a).
Proof.
  intros [-> | [-> | [-> | ->]]];
    destruct c as [[] [] [] [] [] [] [] []]; reflexivity.
Qed.

(** [s.lower() == pattern] is [pattern] spelled in any case. *)
Lemma lower_spells (pattern : string) :
  extension_letters pattern ->
  forall s, (Py.lower s =? pattern) = spells pattern s.
Proof.
  induction pattern as [|a pattern IH]; intros Hl [|c s]; try reflexivity.
  destruct Hl as [Ha Hl]. cbn [Py.lower String.eqb spells].
  now rewrite (lower_ascii_letter a c Ha), (IH Hl).
Qed.

Lemma in_exts_spells (sfx : string) :
  Py.in_tuple (Py.lower sfx) exts = spells ".ppt" sfx || spells ".pptx" sfx.
Proof.
  unfold Py.in_tuple, exts. cbn [existsb].
  rewrite orb_false_r.
  rewrite <- (lower_spells ".ppt"), <- (lower_spells ".pptx");
    [reflexivity | cbn; intuition | cbn; intuition].
Qed.

Lemma in_exts (s : string) :
  Py.in_tuple s exts = true <-> s = ".ppt" \/ s = ".pptx".
Proof.
  unfold Py.in_tuple, exts. simpl. rewrite !orb_true_iff, !String.eqb_eq.
  intuition discriminate.
Qed.

(* ===================================================================== *)
(** ** Facts about traces *)
(* ===================================================================== *)

Lemma calls_app (a b : list event) :
  Trace.calls (a ++ b) = Trace.calls a ++ Trace.calls b.
Proof. apply flat_map_app. Qed.

Lemma spawns_app (a b : list event) :
  Trace.spawns (a ++ b) = Trace.spawns a ++ Trace.spawns b.
Proof. apply flat_map_app. Qed.

Lemma printed_app (s : stream) (a b : list event) :
  Trace.printed s (a ++ b) = Trace.printed s a ++ Trace.printed s b.
Proof. apply flat_map_app. Qed.

Lemma resolutions_app (a b : list event) :
  Trace.resolutions (a ++ b) = Trace.resolutions a ++ Trace.resolutions b.
Proof. unfold Trace.resolutions. now rewrite calls_app, flat_map_app. Qed.

Lemma collections_app (a b : list event) :
  Trace.collections (a ++ b) = Trace.collections a ++ Trace.collections b.
Proof. unfold Trace.collections. now rewrite calls_app, flat_map_app. Qed.

Lemma conversions_app (a b : list event) :
  Trace.conversions (a ++ b) = Trace.conversions a ++ Trace.conversions b.
Proof. unfold Trace.conversions. now rewrite calls_app, flat_map_app. Qed.

Lemma marked_ok_app (a b : list event) :
  Trace.marked_ok (a ++ b) = Trace.marked_ok a + Trace.marked_ok b.
Proof.
  unfold Trace.marked_ok. now rewrite printed_app, filter_app, List.length_app.
Qed.

Lemma marked_failed_app (a b : list event) :
  Trace.marked_failed (a ++ b) = Trace.marked_failed a + Trace.marked_failed b.
Proof.
  unfold Trace.marked_failed. now rewrite printed_app, filter_app, List.length_app.
Qed.

Create Rewrite HintDb trace.
#[local] Hint Rewrite resolutions_app collections_app conversions_app
  spawns_app printed_app marked_ok_app marked_failed_app : trace.

Lemma last_two {A} (l : list A) (x y d : A) : last (l ++ [x; y]) d = y.
Proof.
  change [x; y] with ([x] ++ [y]). rewrite app_assoc. apply last_last.
Qed.

Lemma count_true_false (bs : list bool) :
  count_occ bool_dec bs true + count_occ bool_dec bs false = length bs.
Proof.
  induction bs as [|[|] bs IH]; simpl; lia.
Qed.

(* ===================================================================== *)
(** ** How each function runs *)
(* ===================================================================== *)

Section Runs.

Context (P : Platform).

Lemma collect_files_run (root : Path) (recursive : bool) (w : World) :
  collect_files root recursive w =
  (Return (collect (os w) root recursive),
   mkWorld (os w) (trace w ++ [Ev_call (Call_collect_files root recursive)])).
Proof. reflexivity. Qed.

Lemma first_match_cons_None (cs : list (option string)) :
  first_match (None :: cs) = first_match cs.
Proof. reflexivity. Qed.

Lemma first_match_cons_Some (s : string) (cs : list (option string)) :
  first_match (Some s :: cs) = Return s.
Proof. reflexivity. Qed.

(** Steps 2 to 4 read the operating system and leave no trace. *)
Lemma find_soffice_fallback_run (w : World) :
  find_soffice_fallback P w = (fallback_order P (os w), w).
Proof.
  unfold find_soffice_fallback, fallback_order, install_candidate,
    search_candidate, bind, get_os, Py.or_opt, Py.truthy_opt.
  destruct (Fs.exists_ (os w) (common_win P)); [reflexivity|].
  rewrite first_match_cons_None.
  destruct (shutil_which P (os w) "soffice") as [f|].
  - destruct (Py.truthy f) eqn:Hf.
    + rewrite Hf. reflexivity.
    + rewrite first_match_cons_None.
      destruct (shutil_which P (os w) "soffice.exe") as [g|]; [|reflexivity].
      destruct (Py.truthy g); reflexivity.
  - rewrite first_match_cons_None.
    destruct (shutil_which P (os w) "soffice.exe") as [g|]; [|reflexivity].
    destruct (Py.truthy g); reflexivity.
Qed.

(** [find_soffice] returns what the guarded resolution order selects; it
    reads the operating system and adds its events to the trace. *)
Lemma find_soffice_run (user_path : option string) (w : World) :
  find_soffice P user_path w =
  (resolution_order P (os w) user_path,
   mkWorld (os w) (trace w ++ find_soffice_events P (os w) user_path)).
Proof.
  unfold find_soffice, resolution_order, user_candidate, find_soffice_events.
  unfold bind at 1. cbn [emit].
  destruct user_path as [up|].
  - destruct (Py.truthy up); cbn [andb].
    + unfold bind at 1. cbn [get_os os].
      destruct (Fs.exists_ (os w) (parse_path P up)); cbn [negb].
      * rewrite first_match_cons_Some. reflexivity.
      * rewrite first_match_cons_None. unfold bind, print. cbn [emit os trace].
        rewrite find_soffice_fallback_run. cbn [os trace].
        now rewrite <- app_assoc.
    + rewrite first_match_cons_None, find_soffice_fallback_run. reflexivity.
  - rewrite first_match_cons_None, find_soffice_fallback_run. reflexivity.
Qed.

(** The only thing [find_soffice] raises is its [FileNotFoundError]. *)
Lemma resolution_order_cases (o : OS) (user_path : option string) :
  (exists exe, resolution_order P o user_path = Return exe) \/
  resolution_order P o user_path =
    Raise (Exc (mkException FileNotFoundError not_found_text)).
Proof.
  unfold resolution_order, first_match.
  destruct (flat_map _ _) as [|s l]; [right | left; exists s]; reflexivity.
Qed.

Lemma resolution_order_unresolvable (o : OS) (user_path : option string) :
  unresolvable P o user_path <->
  resolution_order P o user_path =
    Raise (Exc (mkException FileNotFoundError not_found_text)).
Proof.
  unfold unresolvable, resolution_order, first_match. split.
  - intros [-> [-> [-> ->]]]. reflexivity.
  - destruct (user_candidate P o user_path); [discriminate|].
    destruct (install_candidate P o); [discriminate|].
    destruct (search_candidate P o "soffice"); [discriminate|].
    destruct (search_candidate P o "soffice.exe"); [discriminate|].
    auto.
Qed.

(** [find_soffice] is one resolution; it collects nothing, converts
    nothing, spawns nothing and marks nothing. *)
Lemma find_soffice_events_read (o : OS) (user_path : option string) :
  Trace.resolutions (find_soffice_events P o user_path) = [user_path] /\
  Trace.collections (find_soffice_events P o user_path) = [] /\
  Trace.conversions (find_soffice_events P o user_path) = [] /\
  Trace.spawns (find_soffice_events P o user_path) = [] /\
  Trace.marked_ok (find_soffice_events P o user_path) = 0 /\
  Trace.marked_failed (find_soffice_events P o user_path) = 0.
Proof.
  unfold find_soffice_events. destruct user_path as [up|].
  - destruct (Py.truthy up && negb (Fs.exists_ o (parse_path P up)));
      repeat split; reflexivity.
  - repeat split; reflexivity.
Qed.

Lemma find_soffice_returns (user_path : option string) (w : World) (exe : string) :
  fst (find_soffice P user_path w) = Return exe <->
  resolution_order P (os w) user_path = Return exe.
Proof. rewrite find_soffice_run. reflexivity. Qed.

Lemma outcomes_length (exe : string) (files : list Path) :
  forall o, length (outcomes P exe files o) = length files.
Proof.
  induction files as [|f rest IH]; intros o; simpl; [reflexivity|].
  now rewrite IH.
Qed.

(** [convert_file] always returns: the [try] block turns every launch
    failure and every [ValueError] of [with_suffix] into a failed result. *)
Lemma convert_file_run (exe : string) (fpath : Path) (w : World) :
  convert_file P exe fpath w =
  (Return (conversion_outcome P
             (fst (subprocess_run P (os w) (command P exe fpath)))
             (snd (subprocess_run P (os w) (command P exe fpath))) fpath),
   mkWorld (snd (subprocess_run P (os w) (command P exe fpath)))
           (trace w ++ [Ev_call (Call_convert_file exe fpath);
                        Ev_spawn (command P exe fpath)])).
Proof.
  unfold convert_file, conversion_outcome.
  unfold bind at 1. cbn [emit]. unfold try_except, bind, run. cbn [os trace].
  destruct (subprocess_run P (os w) (command P exe fpath)) as [[res|e] o'];
    cbn [fst snd].
  - destruct (PurePath.with_suffix (path_repr P) fpath ".pdf") as [e|out_pdf];
      cbn [lift raise ret get_os os trace]; now rewrite <- app_assoc.
  - cbn [ret]. now rewrite <- app_assoc.
Qed.

(** The loop attempts every file, in order, whatever the earlier
    attempts returned, and counts each attempt once. *)
Lemma convert_each_run (exe : string) (total : nat) (files : list Path) :
  forall (i ok fail : nat) (w : World),
  exists evs,
    convert_each P exe total i files ok fail w =
    (Return (ok + count_occ bool_dec (outcomes P exe files (os w)) true,
             fail + count_occ bool_dec (outcomes P exe files (os w)) false),
     mkWorld (os_after P exe files (os w)) (trace w ++ evs)) /\
    Trace.conversions evs = map (pair exe) files /\
    Trace.spawns evs = map (command P exe) files /\
    Trace.resolutions evs = [] /\
    Trace.collections evs = [] /\
    Trace.printed Stderr evs = [] /\
    Trace.marked_ok evs = count_occ bool_dec (outcomes P exe files (os w)) true /\
    Trace.marked_failed evs =
      count_occ bool_dec (outcomes P exe files (os w)) false.
Proof.
  induction files as [|f rest IH]; intros i ok fail w.
  - exists []. cbn [convert_each outcomes os_after count_occ ret map].
    rewrite app_nil_r, !Nat.add_0_r. destruct w. repeat split; reflexivity.
  - cbn [convert_each outcomes os_after].
    unfold bind at 1. cbn [print emit]. unfold bind at 1.
    rewrite convert_file_run. cbn [os trace].
    set (r := subprocess_run P (os w) (command P exe f)).
    destruct (fst (conversion_outcome P (fst r) (snd r) f)) eqn:Hok.
    + unfold bind at 1. cbn [print emit os trace].
      destruct (IH (S i) (S ok) fail
                  (mkWorld (snd r)
                     (((trace w ++ [Ev_print Stdout (Msg_converting i total (PurePath.name f))]) ++
                       [Ev_call (Call_convert_file exe f); Ev_spawn (command P exe f)]) ++
                      [Ev_print Stdout Msg_ok])))
        as [evs [Hrun [Hconv [Hsp [Hres [Hcol [Herr [Hmok Hmf]]]]]]]].
      cbn [os trace] in *.
      exists ([Ev_print Stdout (Msg_converting i total (PurePath.name f));
               Ev_call (Call_convert_file exe f); Ev_spawn (command P exe f);
               Ev_print Stdout Msg_ok] ++ evs).
      split.
      { rewrite Hrun. rewrite (count_occ_cons_eq bool_dec _ (eq_refl true)).
        rewrite (count_occ_cons_neq bool_dec _ (x := true) (y := false))
          by discriminate.
        rewrite <- !app_assoc. cbn [app]. f_equal. f_equal. f_equal. lia. }
      autorewrite with trace. rewrite Hconv, Hsp, Hres, Hcol, Herr, Hmok, Hmf.
      rewrite (count_occ_cons_eq bool_dec _ (eq_refl true)).
      rewrite (count_occ_cons_neq bool_dec _ (x := true) (y := false))
        by discriminate.
      repeat split; reflexivity.
    + unfold bind at 1. cbn [print emit os trace].
      unfold bind at 1. cbn [print emit os trace].
      destruct (IH (S i) ok (S fail)
                  (mkWorld (snd r)
                     ((((trace w ++ [Ev_print Stdout (Msg_converting i total (PurePath.name f))]) ++
                        [Ev_call (Call_convert_file exe f); Ev_spawn (command P exe f)]) ++
                       [Ev_print Stdout Msg_failed]) ++
                      [Ev_print Stdout
                         (Msg_info (snd (conversion_outcome P (fst r) (snd r) f)))])))
        as [evs [Hrun [Hconv [Hsp [Hres [Hcol [Herr [Hmok Hmf]]]]]]]].
      cbn [os trace] in *.
      exists ([Ev_print Stdout (Msg_converting i total (PurePath.name f));
               Ev_call (Call_convert_file exe f); Ev_spawn (command P exe f);
               Ev_print Stdout Msg_failed;
               Ev_print Stdout
                 (Msg_info (snd (conversion_outcome P (fst r) (snd r) f)))] ++ evs).
      split.
      { rewrite Hrun. rewrite (count_occ_cons_eq bool_dec _ (eq_refl false)).
        rewrite (count_occ_cons_neq bool_dec _ (x := false) (y := true))
          by discriminate.
        rewrite <- !app_assoc. cbn [app]. f_equal. f_equal. f_equal. lia. }
      autorewrite with trace. rewrite Hconv, Hsp, Hres, Hcol, Herr, Hmok, Hmf.
      rewrite (count_occ_cons_eq bool_dec _ (eq_refl false)).
      rewrite (count_occ_cons_neq bool_dec _ (x := false) (y := true))
        by discriminate.
      repeat split; reflexivity.
Qed.

(** A run stopped by the folder check: one line on the diagnostic stream,
    then [sys.exit(2)]. *)
Lemma main_folder_error (args : Args) (w : World) :
  Fs.exists_ (os w) (root_of P (os w) args) = false \/
  Fs.is_dir (os w) (root_of P (os w) args) = false ->
  main P args w =
  (Raise (SystemExit 2),
   mkWorld (os w)
     (trace w ++ [Ev_print Stderr (Msg_folder_not_found (root_of P (os w) args))])).
Proof.
  intros Hbad. unfold main, root_of in *.
  unfold bind at 1. cbn [get_os].
  assert (Hgate : negb (Fs.exists_ (os w)
                    (resolve P (os w) (expanduser P (os w) (parse_path P (folder args)))))
                  || negb (Fs.is_dir (os w)
                    (resolve P (os w) (expanduser P (os w) (parse_path P (folder args)))))
                  = true).
  { destruct Hbad as [-> | ->]; [reflexivity | apply orb_true_r]. }
  rewrite Hgate. reflexivity.
Qed.

(** A run that passes the folder check goes on to [find_soffice] in the
    world it started in. *)
Lemma main_after_folder_check (args : Args) (w : World) :
  folder_ok P (os w) args ->
  main P args w =
  (exe <- try_except (find_soffice P (soffice args)) is_FileNotFoundError
            (fun e => print Stderr (Msg_error (exc_text e)) ;; sys_exit 3) ;;
   files <- collect_files (root_of P (os w) args) (recursive args) ;;
   let total := length files in
   print Stdout (Msg_found total (root_of P (os w) args) (recursive args)) ;;
   (if (total =? 0)%nat then sys_exit 0 else ret tt) ;;
   t0 <- time_time ;;
   counts <- convert_each P exe total 1 files 0 0 ;;
   t1 <- time_time ;;
   let dt := (t1 - t0)%Q in
   print Stdout Msg_rule ;;
   print Stdout (Msg_done (fst counts) (snd counts) total dt)) w.
Proof.
  intros [Hex Hdir]. unfold main, root_of in *.
  unfold bind at 1. cbn [get_os]. rewrite Hex, Hdir. cbn [negb orb].
  unfold bind at 1. cbn [ret]. reflexivity.
Qed.

(** A run stopped because no strategy resolves the executable. *)
Lemma main_resolution_error (args : Args) (w : World) :
  folder_ok P (os w) args ->
  unresolvable P (os w) (soffice args) ->
  main P args w =
  (Raise (SystemExit 3),
   mkWorld (os w)
     (trace w ++ find_soffice_events P (os w) (soffice args) ++
      [Ev_print Stderr (Msg_error not_found_text)])).
Proof.
  intros Hok Hun. rewrite (main_after_folder_check args w Hok).
  apply resolution_order_unresolvable in Hun.
  unfold bind at 1. unfold try_except. rewrite find_soffice_run, Hun.
  cbn [is_FileNotFoundError exc_cls exc_text].
  unfold bind, print, sys_exit, raise. cbn [emit os trace].
  now rewrite <- app_assoc.
Qed.

(** A run that finds nothing to convert. *)
Lemma main_nothing_found (args : Args) (w : World) (exe : string) :
  folder_ok P (os w) args ->
  resolution_order P (os w) (soffice args) = Return exe ->
  collect (os w) (root_of P (os w) args) (recursive args) = [] ->
  main P args w =
  (Raise (SystemExit 0),
   mkWorld (os w)
     (trace w ++ find_soffice_events P (os w) (soffice args) ++
      [Ev_call (Call_collect_files (root_of P (os w) args) (recursive args));
       Ev_print Stdout (Msg_found 0 (root_of P (os w) args) (recursive args))])).
Proof.
  intros Hok Hres Hnone. rewrite (main_after_folder_check args w Hok).
  unfold bind at 1. unfold try_except. rewrite find_soffice_run, Hres.
  unfold bind at 1. rewrite collect_files_run. cbn [os trace]. rewrite Hnone.
  cbn [length Nat.eqb]. unfold bind, print, sys_exit, raise. cbn [emit os trace].
  rewrite <- !app_assoc. reflexivity.
Qed.

(** A run that converts: the loop of [convert_each_run] between the
    banner and the two summary lines. *)
Lemma main_converts (args : Args) (w : World) (exe : string) :
  folder_ok P (os w) args ->
  resolution_order P (os w) (soffice args) = Return exe ->
  collect (os w) (root_of P (os w) args) (recursive args) <> [] ->
  let root := root_of P (os w) args in
  let files := collect (os w) root (recursive args) in
  let flags := outcomes P exe files (os w) in
  let o' := os_after P exe files (os w) in
  exists evs,
    main P args w =
    (Return tt,
     mkWorld o'
       (trace w ++ find_soffice_events P (os w) (soffice args) ++
        [Ev_call (Call_collect_files root (recursive args));
         Ev_print Stdout (Msg_found (length files) root (recursive args))] ++
        evs ++
        [Ev_print Stdout Msg_rule;
         Ev_print Stdout
           (Msg_done (count_occ bool_dec flags true)
                     (count_occ bool_dec flags false)
                     (length files) (clock o' - clock (os w))%Q)])) /\
    Trace.conversions evs = map (pair exe) files /\
    Trace.spawns evs = map (command P exe) files /\
    Trace.resolutions evs = [] /\
    Trace.collections evs = [] /\
    Trace.printed Stderr evs = [] /\
    Trace.marked_ok evs = count_occ bool_dec flags true /\
    Trace.marked_failed evs = count_occ bool_dec flags false.
Proof.
  intros Hok Hres Hsome root files flags o'.
  rewrite (main_after_folder_check args w Hok).
  unfold bind at 1. unfold try_except. rewrite find_soffice_run, Hres.
  unfold bind at 1. rewrite collect_files_run. cbn [os trace].
  fold root. fold files.
  assert (Hlen : (length files =? 0)%nat = false).
  { apply Nat.eqb_neq. intros H0. apply Hsome.
    apply length_zero_iff_nil. exact H0. }
  cbv zeta. rewrite Hlen.
  unfold bind at 1. cbn [print emit os trace].
  unfold bind at 1. cbn [ret].
  unfold bind at 1. cbn [time_time os trace].
  unfold bind at 1.
  destruct (convert_each_run exe (length files) files 1 0 0
              (mkWorld (os w)
                 (((trace w ++ find_soffice_events P (os w) (soffice args)) ++
                   [Ev_call (Call_collect_files root (recursive args))]) ++
                  [Ev_print Stdout (Msg_found (length files) root (recursive args))])))
    as [evs [Hrun Hrest]].
  cbn [os trace] in Hrun, Hrest.
  exists evs. split; [|exact Hrest].
  rewrite Hrun. fold flags. fold o'.
  unfold bind, time_time, print, emit. cbn [os trace fst snd Nat.add].
  rewrite <- !app_assoc. reflexivity.
Qed.

End Runs.

(* ===================================================================== *)
(** ** The properties of the script *)
(* ===================================================================== *)

Section Properties.

Context (P : Platform).

(** C1. Whenever [subprocess.run] returns (whatever exit status [res]
    carries, and whatever state [o'] the external program leaves behind),
    [convert_file] on a path with a name reports success exactly when the
    path with the same parent directory, the same stem and the suffix
    ".pdf" exists in [o'].  In particular a PDF that was there before and
    that the external program did not touch is a success. *)
Theorem convert_file_success_iff_pdf_exists
  (exe : string) (fpath : Path) (w : World)
  (res : CompletedProcess) (o' : OS) :
  PurePath.name fpath <> "" ->
  subprocess_run P (os w) (command P exe fpath) = (Completed res, o') ->
  exists out_pdf ok msg w',
    convert_file P exe fpath w = (Return (ok, msg), w') /\
    os w' = o' /\
    PurePath.parent out_pdf = PurePath.parent fpath /\
    PurePath.name out_pdf =
      (PurePath.stem_of_name (PurePath.name fpath) ++ ".pdf")%string /\
    PurePath.stem_of_name (PurePath.name out_pdf) =
      PurePath.stem_of_name (PurePath.name fpath) /\
    PurePath.suffix out_pdf = ".pdf" /\
    (ok = true <-> Fs.exists_ o' out_pdf = true) /\
    (Fs.exists_ (os w) out_pdf = true ->
     Fs.stat o' out_pdf = Fs.stat (os w) out_pdf ->
     ok = true).
Proof.
  intros Hname Hrun.
  destruct (with_suffix_pdf (path_repr P) fpath Hname)
    as [q [Hq [Hparent [Hn [Hsfx Hstem]]]]].
  exists q, (Fs.exists_ o' q),
    (Py.or_str (Py.strip (stdout res)) (Py.strip (stderr res))).
  eexists. rewrite convert_file_run, Hrun. cbn [fst snd conversion_outcome].
  rewrite Hq. split; [reflexivity|]. cbn [os].
  repeat split; auto.
  unfold Fs.exists_. intros Hbefore Hsame. now rewrite Hsame.
Qed.

(** C2. [collect_files] returns exactly the paths under [root] (direct
    children when not recursive, any depth when recursive) that are files
    and whose suffix is ".ppt" or ".pptx" in any mix of small and capital
    letters; without the recursive flag nothing nested deeper than one
    level is returned.  The list is the listing of the directory
    ([glob], or [rglob] with the flag) with the other entries left out,
    in the order of the listing. *)
Theorem collect_files_exactly
  (root : Path) (recursive : bool) (w : World) :
  exists files w',
    collect_files root recursive w = (Return files, w') /\
    os w' = os w /\
    (forall p,
        In p files <->
        Fs.is_file (os w) p = true /\
        extension_matches p = true /\
        within root recursive p) /\
    (forall ns,
        In (PurePath.descend root ns) files ->
        2 <= length ns -> recursive = true) /\
    files =
      filter (fun p => Fs.is_file (os w) p && extension_matches p)
             (if recursive then Fs.rglob (os w) root else Fs.glob (os w) root).
Proof.
  exists (collect (os w) root recursive). eexists.
  rewrite collect_files_run. split; [reflexivity|]. split; [reflexivity|].
  assert (Hext : forall p, recognized p <-> extension_matches p = true).
  { intros p. unfold recognized, extension_matches.
    rewrite <- in_exts_spells. symmetry. apply in_exts. }
  assert (Hiff : forall p,
             In p (collect (os w) root recursive) <->
             Fs.is_file (os w) p = true /\
             extension_matches p = true /\
             within root recursive p).
  { intros p. rewrite <- Hext. unfold collect, within, recognized.
    destruct recursive; rewrite filter_In, andb_true_iff, in_exts.
    - split.
      + intros [Hin [Hfile Hsfx]]. apply In_rglob in Hin. auto.
      + intros [Hfile [Hsfx [ns [Hne ->]]]]. repeat split; auto.
        apply rglob_In; [exact Hne | now apply is_file_exists].
    - rewrite In_glob. split.
      + intros [[n [-> _]] [Hfile Hsfx]]. repeat split; auto. now exists n.
      + intros [Hfile [Hsfx [n ->]]]. repeat split; auto.
        exists n. split; [reflexivity | now apply is_file_exists]. }
  split; [exact Hiff|]. split.
  - intros ns Hin Hdeep. destruct recursive; [reflexivity|].
    apply Hiff in Hin. destruct Hin as [_ [_ [n Heq]]].
    unfold PurePath.descend, PurePath.child in Heq.
    injection Heq as Heq. apply app_inv_head in Heq. subst ns.
    simpl in Hdeep. lia.
  - unfold collect, extension_matches.
    destruct recursive; apply filter_ext; intros p;
      now rewrite in_exts_spells.
Qed.

(** C4. [convert_file] never raises; when [subprocess.run] raises [e],
    it returns the failed result whose message is [str(e)]. *)
Theorem convert_file_never_raises
  (exe : string) (fpath : Path) (w : World) :
  (exists r w', convert_file P exe fpath w = (Return r, w')) /\
  (forall e o',
      subprocess_run P (os w) (command P exe fpath) = (Launch_failed e, o') ->
      exists w',
        convert_file P exe fpath w = (Return (false, exc_text e), w') /\
        os w' = o').
Proof.
  split.
  - rewrite convert_file_run. eauto.
  - intros e o' Hrun. rewrite convert_file_run, Hrun. cbn [fst snd conversion_outcome].
    eexists. split; reflexivity.
Qed.

(** C3 (amended). [find_soffice] returns the first match of the
    resolution order: the user path, when it is a non-empty string that
    exists on disk (rendered by [str(Path(user_path))], not validated any
    further); else the well-known install location when it exists; else
    what the search path gives for "soffice", else for "soffice.exe"; else
    it raises the [FileNotFoundError] that names the remedy.  It changes
    nothing in the operating system. *)
Theorem find_soffice_resolution_order
  (user_path : option string) (w : World) :
  exists w',
    find_soffice P user_path w = (resolution_order P (os w) user_path, w') /\
    os w' = os w /\
    (unresolvable P (os w) user_path <->
     resolution_order P (os w) user_path =
       Raise (Exc (mkException FileNotFoundError
         "LibreOffice 'soffice' executable not found. Install LibreOffice or pass --soffice PATH"))).
Proof.
  eexists. rewrite find_soffice_run. split; [reflexivity|].
  split; [reflexivity|]. apply resolution_order_unresolvable.
Qed.

(** C8. A user path that is given and does not exist on disk makes
    [find_soffice] print the warning on the diagnostic stream and go on
    with steps 2 to 4: it returns what it returns without a user path.
    (The empty string is [Path("")], the working directory, which
    exists.) *)
Theorem find_soffice_warns_and_falls_through
  (up : string) (w : World) :
  Fs.exists_ (os w) (parse_path P "") = true ->
  Fs.exists_ (os w) (parse_path P up) = false ->
  exists w',
    find_soffice P (Some up) w = (fallback_order P (os w), w') /\
    os w' = os w /\
    trace w' = trace w ++ [Ev_call (Call_find_soffice (Some up));
                           Ev_print Stderr (Msg_provided_not_found up)] /\
    fst (find_soffice P None w) = fallback_order P (os w).
Proof.
  intros Hcwd Hmissing.
  assert (Hup : Py.truthy up = true).
  { apply truthy_true. intros ->. congruence. }
  eexists. rewrite !find_soffice_run.
  unfold resolution_order, user_candidate, find_soffice_events.
  rewrite Hup, Hmissing. cbn [andb negb fst]. rewrite first_match_cons_None.
  repeat split; reflexivity.
Qed.

(** C6. When the root directory does not exist or is not a directory,
    [main] prints one line on the diagnostic stream and exits with status
    2; it has collected nothing, resolved nothing, converted nothing. *)
Theorem main_folder_check_exits_2 (args : Args) (w : World) :
  Fs.exists_ (os w) (root_of P (os w) args) = false \/
  Fs.is_dir (os w) (root_of P (os w) args) = false ->
  exists r w' evs,
    main P args w = (r, w') /\
    exit_code r = 2%Z /\
    os w' = os w /\
    trace w' = trace w ++ evs /\
    Trace.printed Stderr evs = [Msg_folder_not_found (root_of P (os w) args)] /\
    Trace.printed Stdout evs = [] /\
    Trace.collections evs = [] /\
    Trace.resolutions evs = [] /\
    Trace.conversions evs = [] /\
    Trace.spawns evs = [].
Proof.
  intros Hbad. rewrite (main_folder_error P args w Hbad).
  do 3 eexists. split; [reflexivity|]. repeat split; reflexivity.
Qed.

(** C7 (amended). When the folder check passes and no strategy resolves
    the executable, [main] reports the error on the diagnostic stream and
    exits with status 3; no file is passed to [convert_file], nothing is
    spawned, nothing is collected. *)
Theorem main_unresolvable_exits_3 (args : Args) (w : World) :
  folder_ok P (os w) args ->
  unresolvable P (os w) (soffice args) ->
  exists r w' evs,
    main P args w = (r, w') /\
    exit_code r = 3%Z /\
    os w' = os w /\
    trace w' = trace w ++ evs /\
    last evs (Ev_print Stdout Msg_rule) =
      Ev_print Stderr (Msg_error not_found_text) /\
    Trace.conversions evs = [] /\
    Trace.spawns evs = [] /\
    Trace.collections evs = [].
Proof.
  intros Hok Hun. rewrite (main_resolution_error P args w Hok Hun).
  destruct (find_soffice_events_read P (os w) (soffice args))
    as [_ [Hcol [Hconv [Hsp _]]]].
  do 3 eexists. split; [reflexivity|]. cbn [exit_code os trace].
  split; [reflexivity|]. split; [reflexivity|]. split; [reflexivity|].
  autorewrite with trace. rewrite Hcol, Hconv, Hsp.
  split; [apply last_last|]. repeat split; reflexivity.
Qed.

(** C5. In a run that passes the folder check and resolves the
    executable, every collected file is handed to [convert_file], in
    order, whatever the earlier conversions returned; a failed conversion
    only adds one to the failed counter, which the last line printed
    reports; and the exit status is 0 however many conversions fail, also
    when no file was found. *)
Theorem main_failure_does_not_abort
  (args : Args) (w : World) (exe : string) :
  folder_ok P (os w) args ->
  fst (find_soffice P (soffice args) w) = Return exe ->
  let files := collect (os w) (root_of P (os w) args) (recursive args) in
  let flags := outcomes P exe files (os w) in
  exists r w' evs,
    main P args w = (r, w') /\
    trace w' = trace w ++ evs /\
    exit_code r = 0%Z /\
    Trace.conversions evs = map (pair exe) files /\
    Trace.marked_failed evs = count_occ bool_dec flags false /\
    (files <> [] ->
     exists ok dt,
       last evs (Ev_print Stdout Msg_rule) =
       Ev_print Stdout
         (Msg_done ok (count_occ bool_dec flags false) (length files) dt)).
Proof.
  intros Hok Hexe files flags. apply find_soffice_returns in Hexe.
  destruct (find_soffice_events_read P (os w) (soffice args))
    as [_ [_ [Hconv [_ [_ Hmf]]]]].
  destruct files as [|f rest] eqn:Hfiles.
  - rewrite (main_nothing_found P args w exe Hok Hexe Hfiles).
    do 3 eexists. split; [reflexivity|]. cbn [trace exit_code].
    split; [reflexivity|]. split; [reflexivity|].
    autorewrite with trace. rewrite Hconv, Hmf.
    repeat split; try reflexivity. congruence.
  - assert (Hsome : collect (os w) (root_of P (os w) args) (recursive args) <> []).
    { fold files. rewrite Hfiles. discriminate. }
    destruct (main_converts P args w exe Hok Hexe Hsome)
      as [evs [Hmain [Hc [_ [_ [_ [_ [_ Hf]]]]]]]].
    fold files in Hmain, Hc, Hf. rewrite Hfiles in Hmain, Hc, Hf.
    fold flags in Hmain, Hf.
    rewrite Hmain. do 3 eexists. split; [reflexivity|]. cbn [trace exit_code].
    split; [reflexivity|]. split; [reflexivity|].
    autorewrite with trace. rewrite Hconv, Hmf, Hc, Hf.
    split; [now rewrite app_nil_r|]. split; [cbn; lia|].
    intros _. do 2 eexists. rewrite !app_assoc. apply last_two.
Qed.

(** C9 (amended). In a run that passes the folder check the executable is
    resolved exactly once, by the call of [find_soffice] that precedes
    every conversion, and every conversion is handed the value that call
    returned. *)
Theorem main_resolves_once (args : Args) (w : World) :
  folder_ok P (os w) args ->
  exists r w' before after,
    main P args w = (r, w') /\
    trace w' = trace w ++ before ++ after /\
    Trace.resolutions (before ++ after) = [soffice args] /\
    Trace.resolutions before = [soffice args] /\
    Trace.conversions before = [] /\
    (forall exe f,
        In (exe, f) (Trace.conversions after) ->
        fst (find_soffice P (soffice args) w) = Return exe).
Proof.
  intros Hok.
  destruct (find_soffice_events_read P (os w) (soffice args))
    as [Hres [_ [Hconv _]]].
  destruct (resolution_order_cases P (os w) (soffice args)) as [[exe Hexe] | Hnone].
  - destruct (collect (os w) (root_of P (os w) args) (recursive args))
      as [|f rest] eqn:Hfiles.
    + rewrite (main_nothing_found P args w exe Hok Hexe Hfiles).
      exists (Raise (SystemExit 0)). eexists.
      exists (find_soffice_events P (os w) (soffice args)). eexists.
      split; [reflexivity|]. cbn [trace]. split; [reflexivity|].
      autorewrite with trace. rewrite Hres, Hconv.
      repeat split; try reflexivity. intros e g [].
    + assert (Hsome : collect (os w) (root_of P (os w) args) (recursive args) <> []).
      { rewrite Hfiles. discriminate. }
      destruct (main_converts P args w exe Hok Hexe Hsome)
        as [evs [Hmain [Hc [_ [Hr _]]]]].
      rewrite Hmain. exists (Return tt). eexists.
      exists (find_soffice_events P (os w) (soffice args)). eexists.
      split; [reflexivity|]. cbn [trace]. split; [reflexivity|].
      autorewrite with trace. rewrite Hres, Hconv, Hr, Hc.
      repeat split; try reflexivity.
      intros e g Hin. cbn in Hin. rewrite app_nil_r in Hin.
      apply in_map_iff in Hin. destruct Hin as [g' [[= <- <-] _]].
      now apply find_soffice_returns.
  - apply resolution_order_unresolvable in Hnone.
    rewrite (main_resolution_error P args w Hok Hnone).
    exists (Raise (SystemExit 3)). eexists.
    exists (find_soffice_events P (os w) (soffice args)). eexists.
    split; [reflexivity|]. cbn [trace]. split; [reflexivity|].
    autorewrite with trace. rewrite Hres, Hconv.
    repeat split; try reflexivity. intros e g [].
Qed.

(** C10. A run that goes through the conversion loop counts every
    collected file in exactly one of its two counters: the summary line
    carries [ok] and [fail] with [ok + fail = total], [total] being the
    number of collected files. *)
Theorem main_counts_add_up
  (args : Args) (w : World) (exe : string) :
  folder_ok P (os w) args ->
  fst (find_soffice P (soffice args) w) = Return exe ->
  collect (os w) (root_of P (os w) args) (recursive args) <> [] ->
  let files := collect (os w) (root_of P (os w) args) (recursive args) in
  let flags := outcomes P exe files (os w) in
  exists w' evs ok fail dt,
    main P args w = (Return tt, w') /\
    trace w' = trace w ++ evs /\
    last evs (Ev_print Stdout Msg_rule) =
      Ev_print Stdout (Msg_done ok fail (length files) dt) /\
    ok + fail = length files /\
    ok = count_occ bool_dec flags true /\
    fail = count_occ bool_dec flags false /\
    length flags = length files /\
    Trace.marked_ok evs = ok /\
    Trace.marked_failed evs = fail.
Proof.
  intros Hok Hexe Hsome files flags. apply find_soffice_returns in Hexe.
  destruct (find_soffice_events_read P (os w) (soffice args))
    as [_ [_ [_ [_ [Hmo Hmf]]]]].
  destruct (main_converts P args w exe Hok Hexe Hsome)
    as [evs [Hmain [_ [_ [_ [_ [_ [Ho Hf]]]]]]]].
  fold files in Hmain, Ho, Hf. fold flags in Hmain, Ho, Hf.
  rewrite Hmain. do 5 eexists. split; [reflexivity|]. cbn [trace].
  split; [reflexivity|].
  split; [rewrite !app_assoc; apply last_two|].
  assert (Hlen : length flags = length files) by apply outcomes_length.
  split; [rewrite <- Hlen; apply count_true_false|].
  split; [reflexivity|]. split; [reflexivity|]. split; [exact Hlen|].
  autorewrite with trace. rewrite Hmo, Hmf, Ho, Hf. cbn. split; lia.
Qed.

End Properties.

(* ===================================================================== *)
(** ** The script at work on the POSIX platform *)
(* ===================================================================== *)

(** Non-recursive collection sees the three presentations of [/docs];
    recursive collection adds the one two levels down, and leaves out the
    directory named [e.ppt]. *)
Example collect_docs_flat :
  collect Posix.machine (mkPath true ["docs"]) false =
  [Posix.a_pptx; Posix.b_ppt; Posix.old_ppt].
Proof. reflexivity. Qed.

Example collect_docs_recursive :
  collect Posix.machine (mkPath true ["docs"]) true =
  [Posix.a_pptx; Posix.b_ppt; Posix.old_ppt; Posix.d_PPTX].
Proof. reflexivity. Qed.

(** Exit status 1 and a PDF on disk is a success; exit status 0 and no
    PDF is a failure. *)
Example convert_status_1_pdf_written :
  fst (convert_file Posix.grumpy Posix.exe Posix.a_pptx (Posix.boot Posix.machine))
  = Return (true, "convert: done").
Proof. reflexivity. Qed.

Example convert_status_0_nothing_written :
  fst (convert_file Posix.mute Posix.exe Posix.a_pptx (Posix.boot Posix.machine))
  = Return (false, "Error: source file could not be loaded").
Proof. reflexivity. Qed.

(** The PDF of an earlier run counts as a success of this one. *)
Example convert_stale_pdf :
  fst (convert_file Posix.broken Posix.exe Posix.old_ppt (Posix.boot Posix.machine))
  = Return (true, "Error: source file could not be loaded").
Proof. reflexivity. Qed.

(** C2 on [/docs], recursively: the presentation two levels down, whose
    extension is in capitals, is collected; the text file and the
    directory named [e.ppt] are not. *)
Lemma collect_files_exactly_witness :
  exists files w',
    collect_files (mkPath true ["docs"]) true (Posix.boot Posix.machine)
      = (Return files, w') /\
    In Posix.d_PPTX files /\
    In Posix.a_pptx files /\
    ~ In (mkPath true ["docs"; "c.txt"]) files /\
    ~ In (mkPath true ["docs"; "sub"; "e.ppt"]) files.
Proof.
  destruct (collect_files_exactly (mkPath true ["docs"]) true
              (Posix.boot Posix.machine))
    as [files [w' [Hrun [_ [Hiff _]]]]].
  exists files, w'. split; [exact Hrun|].
  split.
  { apply Hiff. repeat split; try reflexivity.
    exists ["sub"; "deep"; "d.PPTX"]. split; [discriminate | reflexivity]. }
  split.
  { apply Hiff. repeat split; try reflexivity.
    exists ["a.pptx"]. split; [discriminate | reflexivity]. }
  split.
  - intros Hin. apply Hiff in Hin. destruct Hin as [_ [Hsfx _]]. discriminate.
  - intros Hin. apply Hiff in Hin. destruct Hin as [Hfile _]. discriminate.
Defined.

(** C1 on the stale PDF: the external program exits with status 1 and
    writes nothing. *)
Lemma convert_file_success_iff_pdf_exists_witness :
  exists out_pdf ok msg w',
    convert_file Posix.broken Posix.exe Posix.old_ppt (Posix.boot Posix.machine)
      = (Return (ok, msg), w') /\
    os w' = snd (subprocess_run Posix.broken Posix.machine
                   (command Posix.broken Posix.exe Posix.old_ppt)) /\
    PurePath.parent out_pdf = PurePath.parent Posix.old_ppt /\
    PurePath.name out_pdf = "old.pdf" /\
    PurePath.stem_of_name (PurePath.name out_pdf) = "old" /\
    PurePath.suffix out_pdf = ".pdf" /\
    (ok = true <->
     Fs.exists_ (snd (subprocess_run Posix.broken Posix.machine
                        (command Posix.broken Posix.exe Posix.old_ppt)))
                out_pdf = true) /\
    (Fs.exists_ Posix.machine out_pdf = true ->
     Fs.stat (snd (subprocess_run Posix.broken Posix.machine
                     (command Posix.broken Posix.exe Posix.old_ppt)))
             out_pdf = Fs.stat Posix.machine out_pdf ->
     ok = true).
Proof.
  apply (convert_file_success_iff_pdf_exists Posix.broken Posix.exe
           Posix.old_ppt (Posix.boot Posix.machine)
           (mkCompleted 1 "" "Error: source file could not be loaded")).
  - discriminate.
  - reflexivity.
Defined.

(** C4 where the external program cannot be started. *)
Lemma convert_file_never_raises_witness :
  exists w',
    convert_file Posix.locked Posix.exe Posix.a_pptx (Posix.boot Posix.machine)
      = (Return (false, "[Errno 13] Permission denied: 'soffice'"), w') /\
    os w' = Posix.machine.
Proof.
  apply (proj2 (convert_file_never_raises Posix.locked Posix.exe Posix.a_pptx
                  (Posix.boot Posix.machine))
           (mkException PermissionError "[Errno 13] Permission denied: 'soffice'")
           Posix.machine).
  reflexivity.
Defined.

(** C3 as stated fails on the empty string: [Path("")] is the working
    directory and exists, the specification's order returns it, and
    [find_soffice] goes on to the search path. *)
Lemma find_soffice_skips_empty_user_path :
  Fs.exists_ Posix.machine (parse_path Posix.office "") = true /\
  resolution_order_claimed Posix.office Posix.machine (Some "") = Return "." /\
  fst (find_soffice Posix.office (Some "") (Posix.boot Posix.machine))
    = Return "/usr/bin/soffice" /\
  trace (snd (find_soffice Posix.office (Some "") (Posix.boot Posix.machine)))
    = [Ev_call (Call_find_soffice (Some ""))].
Proof. repeat split; reflexivity. Qed.

(** C8 on a user path that does not exist. *)
Lemma find_soffice_warns_and_falls_through_witness :
  exists w',
    find_soffice Posix.office (Some "/opt/lo/soffice") (Posix.boot Posix.machine)
      = (Return "/usr/bin/soffice", w') /\
    os w' = Posix.machine /\
    trace w' = [Ev_call (Call_find_soffice (Some "/opt/lo/soffice"));
                Ev_print Stderr (Msg_provided_not_found "/opt/lo/soffice")] /\
    fst (find_soffice Posix.office None (Posix.boot Posix.machine))
      = Return "/usr/bin/soffice".
Proof.
  apply (find_soffice_warns_and_falls_through Posix.office "/opt/lo/soffice"
           (Posix.boot Posix.machine)); reflexivity.
Defined.

(** C6 on a folder argument that names a file. *)
Lemma main_folder_check_exits_2_witness :
  exists r w' evs,
    main Posix.office (mkArgs "/docs/a.pptx" true None) (Posix.boot Posix.machine)
      = (r, w') /\
    exit_code r = 2%Z /\
    os w' = Posix.machine /\
    trace w' = [] ++ evs /\
    Trace.printed Stderr evs = [Msg_folder_not_found Posix.a_pptx] /\
    Trace.printed Stdout evs = [] /\
    Trace.collections evs = [] /\
    Trace.resolutions evs = [] /\
    Trace.conversions evs = [] /\
    Trace.spawns evs = [].
Proof.
  apply (main_folder_check_exits_2 Posix.office (mkArgs "/docs/a.pptx" true None)
           (Posix.boot Posix.machine)).
  right. reflexivity.
Defined.

(** C7 (amended) on the machine without LibreOffice. *)
Lemma main_unresolvable_exits_3_witness :
  exists r w' evs,
    main Posix.office (mkArgs "/docs" false (Some "/opt/lo/soffice"))
         (Posix.boot Posix.bare_machine) = (r, w') /\
    exit_code r = 3%Z /\
    os w' = Posix.bare_machine /\
    trace w' = [] ++ evs /\
    last evs (Ev_print Stdout Msg_rule) =
      Ev_print Stderr (Msg_error not_found_text) /\
    Trace.conversions evs = [] /\
    Trace.spawns evs = [] /\
    Trace.collections evs = [].
Proof.
  apply (main_unresolvable_exits_3 Posix.office
           (mkArgs "/docs" false (Some "/opt/lo/soffice"))
           (Posix.boot Posix.bare_machine)).
  - split; reflexivity.
  - repeat split; reflexivity.
Defined.

(** C7 as stated fails when the folder is missing too: nothing resolves
    the executable, and the run exits with status 2, not 3. *)
Lemma main_unresolvable_bad_folder_exits_2 :
  unresolvable Posix.office Posix.bare_machine None /\
  exit_code (fst (main Posix.office (mkArgs "/nowhere" false None)
                       (Posix.boot Posix.bare_machine))) = 2%Z /\
  exit_code (fst (main Posix.office (mkArgs "/nowhere" false None)
                       (Posix.boot Posix.bare_machine))) <> 3%Z.
Proof.
  split; [repeat split; reflexivity|]. split; [reflexivity | discriminate].
Qed.

(** C5 where the external program never writes a PDF: the two files
    without a PDF fail, [old.ppt] is attempted all the same, the run
    returns. *)
Lemma main_failure_does_not_abort_witness :
  exists r w' evs,
    main Posix.mute (mkArgs "/docs" false None) (Posix.boot Posix.machine)
      = (r, w') /\
    trace w' = [] ++ evs /\
    exit_code r = 0%Z /\
    Trace.conversions evs =
      [(Posix.exe, Posix.a_pptx); (Posix.exe, Posix.b_ppt); (Posix.exe, Posix.old_ppt)] /\
    Trace.marked_failed evs = 2 /\
    exists ok dt,
      last evs (Ev_print Stdout Msg_rule) = Ev_print Stdout (Msg_done ok 2 3 dt).
Proof.
  destruct (main_failure_does_not_abort Posix.mute (mkArgs "/docs" false None)
              (Posix.boot Posix.machine) Posix.exe)
    as [r [w' [evs [Hmain [Htrace [Hexit [Hconv [Hfail Hlast]]]]]]]].
  - split; reflexivity.
  - reflexivity.
  - exists r, w', evs. repeat split; try assumption.
    apply Hlast. discriminate.
Defined.

(** C9 (amended) on a run that converts four files. *)
Lemma main_resolves_once_witness :
  exists r w' before after,
    main Posix.office (mkArgs "/docs" true None) (Posix.boot Posix.machine)
      = (r, w') /\
    trace w' = [] ++ before ++ after /\
    Trace.resolutions (before ++ after) = [None] /\
    Trace.resolutions before = [None] /\
    Trace.conversions before = [] /\
    (forall exe f,
        In (exe, f) (Trace.conversions after) ->
        fst (find_soffice Posix.office None (Posix.boot Posix.machine)) = Return exe).
Proof.
  apply (main_resolves_once Posix.office (mkArgs "/docs" true None)
           (Posix.boot Posix.machine)).
  split; reflexivity.
Defined.

(** C9 as stated fails on a run the folder check stops: it resolves the
    executable not once but never. *)
Lemma main_bad_folder_resolves_nothing :
  Trace.resolutions
    (trace (snd (main Posix.office (mkArgs "/nowhere" false None)
                      (Posix.boot Posix.machine)))) = [] /\
  exit_code (fst (main Posix.office (mkArgs "/nowhere" false None)
                       (Posix.boot Posix.machine))) = 2%Z.
Proof. split; reflexivity. Qed.

(** C10 where one conversion of three succeeds. *)
Lemma main_counts_add_up_witness :
  exists w' evs ok fail dt,
    main Posix.mute (mkArgs "/docs" false None) (Posix.boot Posix.machine)
      = (Return tt, w') /\
    trace w' = [] ++ evs /\
    last evs (Ev_print Stdout Msg_rule) = Ev_print Stdout (Msg_done ok fail 3 dt) /\
    ok + fail = 3 /\
    ok = 1 /\
    fail = 2 /\
    length (outcomes Posix.mute Posix.exe
              [Posix.a_pptx; Posix.b_ppt; Posix.old_ppt] Posix.machine) = 3 /\
    Trace.marked_ok evs = ok /\
    Trace.marked_failed evs = fail.
Proof.
  apply (main_counts_add_up Posix.mute (mkArgs "/docs" false None)
           (Posix.boot Posix.machine) Posix.exe).
  - split; reflexivity.
  - reflexivity.
  - discriminate.
Defined.

(* ===================================================================== *)
(** ** The trace of the loop, event by event *)
(* ===================================================================== *)

Lemma announced_app (a b : list event) :
  Report.announced (a ++ b) = Report.announced a ++ Report.announced b.
Proof. unfold Report.announced. now rewrite printed_app, flat_map_app. Qed.

Lemma details_app (a b : list event) :
  Report.details (a ++ b) = Report.details a ++ Report.details b.
Proof. unfold Report.details. now rewrite printed_app, flat_map_app. Qed.

#[local] Hint Rewrite announced_app details_app : trace.

Section Loop_runs.

Context (P : Platform).

(** The loop leaves exactly [loop_events] in the trace. *)
Lemma convert_each_events (exe : string) (total : nat) (files : list Path) :
  forall (i ok fail : nat) (w : World),
    convert_each P exe total i files ok fail w =
    (Return (ok + count_occ bool_dec (outcomes P exe files (os w)) true,
             fail + count_occ bool_dec (outcomes P exe files (os w)) false),
     mkWorld (os_after P exe files (os w))
             (trace w ++ loop_events P exe total i files (os w))).
Proof.
  induction files as [|f rest IH]; intros i ok fail w.
  - cbn [convert_each outcomes os_after loop_events count_occ ret].
    rewrite app_nil_r, !Nat.add_0_r. now destruct w.
  - cbn [convert_each outcomes os_after loop_events].
    unfold bind at 1. cbn [print emit]. unfold bind at 1.
    rewrite convert_file_run. cbn [os trace].
    set (r := subprocess_run P (os w) (command P exe f)).
    destruct (fst (conversion_outcome P (fst r) (snd r) f)) eqn:Hok.
    + unfold bind at 1. cbn [print emit os trace]. rewrite IH. cbn [os trace].
      rewrite (count_occ_cons_eq bool_dec _ (eq_refl true)).
      rewrite (count_occ_cons_neq bool_dec _ (x := true) (y := false))
        by discriminate.
      rewrite <- !app_assoc. cbn [app]. do 3 f_equal. lia.
    + unfold bind at 1. cbn [print emit os trace].
      unfold bind at 1. cbn [print emit os trace]. rewrite IH. cbn [os trace].
      rewrite (count_occ_cons_eq bool_dec _ (eq_refl false)).
      rewrite (count_occ_cons_neq bool_dec _ (x := false) (y := true))
        by discriminate.
      rewrite <- !app_assoc. cbn [app]. do 3 f_equal. lia.
Qed.

(** What the trace of the loop holds, reading by reading. *)
Lemma loop_events_read (exe : string) (total : nat) (files : list Path) :
  forall (i : nat) (o : OS),
    Trace.spawns (loop_events P exe total i files o) =
      map (command P exe) files /\
    Trace.conversions (loop_events P exe total i files o) =
      map (pair exe) files /\
    Trace.resolutions (loop_events P exe total i files o) = [] /\
    Trace.collections (loop_events P exe total i files o) = [] /\
    Trace.printed Stderr (loop_events P exe total i files o) = [] /\
    Report.announced (loop_events P exe total i files o) =
      map (fun kf => (fst kf, total, PurePath.name (snd kf)))
          (combine (seq i (length files)) files) /\
    Report.details (loop_events P exe total i files o) =
      failure_messages P exe files o.
Proof.
  induction files as [|f rest IH]; intros i o.
  - repeat split; reflexivity.
  - cbn [loop_events failure_messages length seq combine map].
    set (r := subprocess_run P o (command P exe f)).
    destruct (IH (S i) (snd r)) as [Hs [Hc [Hr [Hcol [He [Ha Hd]]]]]].
    autorewrite with trace. rewrite Hs, Hc, Hr, Hcol, He, Ha, Hd.
    destruct (fst (conversion_outcome P (fst r) (snd r) f));
      repeat split; reflexivity.
Qed.

Lemma failure_messages_length (exe : string) (files : list Path) :
  forall o,
    length (failure_messages P exe files o) =
    count_occ bool_dec (outcomes P exe files o) false.
Proof.
  induction files as [|f rest IH]; intros o; [reflexivity|].
  cbn [failure_messages outcomes]. rewrite List.length_app, IH.
  destruct (fst (conversion_outcome P _ _ f)); reflexivity.
Qed.

Lemma main_run (args : Args) (w : World) (exe : string) :
  folder_ok P (os w) args ->
  resolution_order P (os w) (soffice args) = Return exe ->
  let files := collect (os w) (root_of P (os w) args) (recursive args) in
  main P args w =
  (match files with [] => Raise (SystemExit 0) | _ :: _ => Return tt end,
   mkWorld (os_after P exe files (os w))
           (trace w ++ run_events P args (os w) exe)).
Proof.
  intros Hok Hres files. unfold run_events. fold files.
  destruct files as [|f rest] eqn:Hfiles.
  - rewrite (main_nothing_found P args w exe Hok Hres Hfiles). reflexivity.
  - rewrite <- Hfiles.
    rewrite (main_after_folder_check P args w Hok).
    unfold bind at 1. unfold try_except. rewrite find_soffice_run, Hres.
    unfold bind at 1. rewrite collect_files_run. cbn [os trace].
    fold files. rewrite Hfiles. rewrite <- Hfiles.
    assert (Hlen : (length files =? 0)%nat = false).
    { rewrite Hfiles. reflexivity. }
    cbv zeta. rewrite Hlen.
    unfold bind at 1. cbn [print emit os trace].
    unfold bind at 1. cbn [ret].
    unfold bind at 1. cbn [time_time os trace].
    unfold bind at 1. rewrite convert_each_events. cbn [os trace].
    unfold bind, time_time, print, emit. cbn [os trace fst snd Nat.add].
    rewrite <- !app_assoc. reflexivity.
Qed.

End Loop_runs.

(* ===================================================================== *)
(** ** Further properties of [main] *)
(* ===================================================================== *)

Ltac read_trace :=
  cbn [Trace.spawns Trace.collections Trace.calls Trace.conversions
       Trace.resolutions Trace.printed Report.announced Report.details
       flat_map app];
  rewrite ?app_nil_r.

Section Main_properties.

Context (P : Platform).

Lemma folder_ok_or_not (o : OS) (args : Args) :
  folder_ok P o args \/
  (Fs.exists_ o (root_of P o args) = false \/
   Fs.is_dir o (root_of P o args) = false).
Proof.
  unfold folder_ok.
  destruct (Fs.exists_ o (root_of P o args)); [|right; left; reflexivity].
  destruct (Fs.is_dir o (root_of P o args)); [left | right; right]; auto.
Qed.

Lemma find_soffice_events_stdout (o : OS) (user_path : option string) :
  Trace.printed Stdout (find_soffice_events P o user_path) = [].
Proof.
  unfold find_soffice_events. destruct user_path as [up|]; [|reflexivity].
  destruct (Py.truthy up && negb (Fs.exists_ o (parse_path P up))); reflexivity.
Qed.

Lemma find_soffice_events_stderr (o : OS) (user_path : option string) :
  Trace.printed Stderr (find_soffice_events P o user_path) = [] \/
  exists up,
    user_path = Some up /\
    Trace.printed Stderr (find_soffice_events P o user_path) =
      [Msg_provided_not_found up].
Proof.
  unfold find_soffice_events. destruct user_path as [up|]; [|left; reflexivity].
  destruct (Py.truthy up && negb (Fs.exists_ o (parse_path P up)));
    [right; now exists up | left; reflexivity].
Qed.

Lemma os_after_invariant (I : OS -> Prop) (exe : string) (files : list Path) :
  (forall o cmd, I o -> I (snd (subprocess_run P o cmd))) ->
  forall o, I o -> I (os_after P exe files o).
Proof.
  intros Hstep. induction files as [|f rest IH]; intros o Ho; [exact Ho|].
  cbn [os_after]. apply IH, Hstep, Ho.
Qed.

Lemma outcomes_cannot_launch (exe : string) (files : list Path) :
  (forall o cmd, exists e, fst (subprocess_run P o cmd) = Launch_failed e) ->
  forall o,
    count_occ bool_dec (outcomes P exe files o) true = 0 /\
    count_occ bool_dec (outcomes P exe files o) false = length files.
Proof.
  intros Hfail. induction files as [|f rest IH]; intros o; [split; reflexivity|].
  cbn [outcomes length].
  destruct (Hfail o (command P exe f)) as [e He]. rewrite He.
  cbn [conversion_outcome fst].
  destruct (IH (snd (subprocess_run P o (command P exe f)))) as [Ht Hf].
  rewrite (count_occ_cons_neq bool_dec _ (x := false) (y := true)) by discriminate.
  rewrite (count_occ_cons_eq bool_dec _ (eq_refl false)).
  split; [exact Ht | now rewrite Hf].
Qed.

(** X1. The exit status of every run: 2 exactly when the folder check
    fails, 3 exactly when it passes and no strategy resolves the
    executable, 0 exactly when it passes and [find_soffice] returns (also
    when no file is found, and however many conversions fail). *)
Theorem main_exit_code_cases (args : Args) (w : World) :
  (exit_code (fst (main P args w)) = 2%Z <-> ~ folder_ok P (os w) args) /\
  (exit_code (fst (main P args w)) = 3%Z <->
   folder_ok P (os w) args /\ unresolvable P (os w) (soffice args)) /\
  (exit_code (fst (main P args w)) = 0%Z <->
   folder_ok P (os w) args /\
   exists exe, fst (find_soffice P (soffice args) w) = Return exe).
Proof.
  destruct (folder_ok_or_not (os w) args) as [Hok | Hbad].
  - destruct (resolution_order_cases P (os w) (soffice args)) as [[exe Hexe] | Hnone].
    + assert (Hzero : exit_code (fst (main P args w)) = 0%Z).
      { rewrite (main_run P args w exe Hok Hexe).
        destruct (collect _ _ _); reflexivity. }
      rewrite Hzero. split; [|split]; split.
      * discriminate.
      * tauto.
      * discriminate.
      * intros [_ Hun]. apply resolution_order_unresolvable in Hun. congruence.
      * intros _. split; [exact Hok|]. exists exe. now apply find_soffice_returns.
      * reflexivity.
    + pose proof Hnone as Hun. apply resolution_order_unresolvable in Hun.
      rewrite (main_resolution_error P args w Hok Hun). cbn [fst exit_code].
      split; [|split]; split.
      * discriminate.
      * tauto.
      * tauto.
      * reflexivity.
      * discriminate.
      * intros [_ [exe Hexe]]. apply find_soffice_returns in Hexe. congruence.
  - rewrite (main_folder_error P args w Hbad). cbn [fst exit_code].
    assert (Hnot : ~ folder_ok P (os w) args).
    { intros [Hex Hdir]. destruct Hbad; congruence. }
    split; [|split]; split.
    + tauto.
    + reflexivity.
    + discriminate.
    + tauto.
    + discriminate.
    + tauto.
Qed.

(** X2. A run that passes the folder check and resolves the executable
    calls [collect_files] once, on the resolved root with the flag given,
    and spawns one process per collected file, in the order collected, each
    with the command line
    [exe --headless --convert-to pdf --outdir <parent of the file> <file>]:
    no file is skipped, none is tried twice. *)
Theorem main_spawns_one_process_per_file
  (args : Args) (w : World) (exe : string) :
  folder_ok P (os w) args ->
  fst (find_soffice P (soffice args) w) = Return exe ->
  let root := root_of P (os w) args in
  let files := collect (os w) root (recursive args) in
  exists r w' evs,
    main P args w = (r, w') /\
    trace w' = trace w ++ evs /\
    Trace.collections evs = [(root, recursive args)] /\
    Trace.spawns evs =
      map (fun f => [exe; "--headless"; "--convert-to"; "pdf"; "--outdir";
                     path_str P (PurePath.parent f); path_str P f])
          files.
Proof.
  intros Hok Hexe root files. apply find_soffice_returns in Hexe.
  rewrite (main_run P args w exe Hok Hexe). fold root. fold files.
  do 3 eexists. split; [reflexivity|]. cbn [trace]. split; [reflexivity|].
  destruct (find_soffice_events_read P (os w) (soffice args))
    as [_ [Hcol [_ [Hsp _]]]].
  unfold run_events. fold root. fold files. autorewrite with trace.
  rewrite Hcol, Hsp.
  destruct files as [|f rest]; [split; reflexivity|].
  destruct (loop_events_read P exe (length (f :: rest)) (f :: rest) 1 (os w))
    as [Hs [_ [_ [Hc _]]]].
  autorewrite with trace. rewrite Hs, Hc. read_trace. split; reflexivity.
Qed.

(** X3. When nothing is collected the run prints the banner with count 0
    and nothing else (no summary line), spawns nothing, leaves the
    operating system as it was and exits with status 0 through
    [sys.exit(0)]. *)
Theorem main_nothing_found_banner_only
  (args : Args) (w : World) (exe : string) :
  folder_ok P (os w) args ->
  fst (find_soffice P (soffice args) w) = Return exe ->
  collect (os w) (root_of P (os w) args) (recursive args) = [] ->
  exists w' evs,
    main P args w = (Raise (SystemExit 0), w') /\
    os w' = os w /\
    trace w' = trace w ++ evs /\
    Trace.printed Stdout evs =
      [Msg_found 0 (root_of P (os w) args) (recursive args)] /\
    Trace.spawns evs = [] /\
    Trace.conversions evs = [].
Proof.
  intros Hok Hexe Hnone. apply find_soffice_returns in Hexe.
  rewrite (main_nothing_found P args w exe Hok Hexe Hnone).
  do 2 eexists. split; [reflexivity|]. cbn [os trace].
  split; [reflexivity|]. split; [reflexivity|].
  destruct (find_soffice_events_read P (os w) (soffice args))
    as [_ [_ [Hconv [Hsp _]]]].
  autorewrite with trace.
  rewrite Hconv, Hsp, find_soffice_events_stdout. repeat split; reflexivity.
Qed.

(** X4. Failed conversions are reported on the standard output, one
    detail line per failed file carrying the message [convert_file]
    returned; the only thing a run that passes the folder check and
    resolves the executable writes to the diagnostic stream is the warning
    of [find_soffice]. *)
Theorem main_failures_reported_on_stdout
  (args : Args) (w : World) (exe : string) :
  folder_ok P (os w) args ->
  fst (find_soffice P (soffice args) w) = Return exe ->
  let files := collect (os w) (root_of P (os w) args) (recursive args) in
  exists r w' evs,
    main P args w = (r, w') /\
    trace w' = trace w ++ evs /\
    (Trace.printed Stderr evs = [] \/
     exists up,
       soffice args = Some up /\
       Trace.printed Stderr evs = [Msg_provided_not_found up]) /\
    Report.details evs = failure_messages P exe files (os w) /\
    length (Report.details evs) =
      count_occ bool_dec (outcomes P exe files (os w)) false.
Proof.
  intros Hok Hexe files. apply find_soffice_returns in Hexe.
  rewrite (main_run P args w exe Hok Hexe). fold files.
  do 3 eexists. split; [reflexivity|]. cbn [trace]. split; [reflexivity|].
  assert (Hd : Report.details (find_soffice_events P (os w) (soffice args)) = []).
  { unfold Report.details. now rewrite find_soffice_events_stdout. }
  unfold run_events. fold files. autorewrite with trace. rewrite Hd.
  destruct files as [|f rest] eqn:Hfiles.
  - read_trace. split; [apply find_soffice_events_stderr|].
    split; reflexivity.
  - destruct (loop_events_read P exe (length (f :: rest)) (f :: rest) 1 (os w))
      as [_ [_ [_ [_ [He [_ Hdl]]]]]].
    autorewrite with trace. rewrite He, Hdl. read_trace.
    split; [apply find_soffice_events_stderr|]. split; [reflexivity|].
    apply failure_messages_length.
Qed.

(** X5. The progress lines of a run are numbered 1, 2, ..., total, in the
    order the files were collected, each with the name of its file and the
    total of the banner. *)
Theorem main_progress_lines_numbered
  (args : Args) (w : World) (exe : string) :
  folder_ok P (os w) args ->
  fst (find_soffice P (soffice args) w) = Return exe ->
  let files := collect (os w) (root_of P (os w) args) (recursive args) in
  exists r w' evs,
    main P args w = (r, w') /\
    trace w' = trace w ++ evs /\
    Report.announced evs =
      map (fun kf => (fst kf, length files, PurePath.name (snd kf)))
          (combine (seq 1 (length files)) files).
Proof.
  intros Hok Hexe files. apply find_soffice_returns in Hexe.
  rewrite (main_run P args w exe Hok Hexe). fold files.
  do 3 eexists. split; [reflexivity|]. cbn [trace]. split; [reflexivity|].
  assert (Ha : Report.announced (find_soffice_events P (os w) (soffice args)) = []).
  { unfold Report.announced. now rewrite find_soffice_events_stdout. }
  unfold run_events. fold files. autorewrite with trace. rewrite Ha.
  destruct files as [|f rest] eqn:Hfiles; [reflexivity|].
  destruct (loop_events_read P exe (length (f :: rest)) (f :: rest) 1 (os w))
    as [_ [_ [_ [_ [_ [Han _]]]]]].
  autorewrite with trace. rewrite Han.
  cbn [Report.announced Trace.printed flat_map app]. now rewrite !app_nil_r.
Qed.

(** X6. The script changes the operating system only through the
    processes it spawns: whatever every spawned process preserves, a run
    of [main] preserves, however it ends. *)
Theorem main_preserves_what_processes_preserve
  (I : OS -> Prop) (args : Args) (w : World) :
  (forall o cmd, I o -> I (snd (subprocess_run P o cmd))) ->
  I (os w) ->
  I (os (snd (main P args w))).
Proof.
  intros Hstep Hw.
  destruct (folder_ok_or_not (os w) args) as [Hok | Hbad].
  - destruct (resolution_order_cases P (os w) (soffice args)) as [[exe Hexe] | Hnone].
    + rewrite (main_run P args w exe Hok Hexe). cbn [snd os].
      now apply os_after_invariant.
    + apply resolution_order_unresolvable in Hnone.
      rewrite (main_resolution_error P args w Hok Hnone). exact Hw.
  - rewrite (main_folder_error P args w Hbad). exact Hw.
Qed.

(** X7. When the resolved executable can never be started, every
    collected file is still attempted and fails: the summary line reads
    success 0, failed = total, and the run returns with exit status 0. *)
Theorem main_cannot_launch_all_fail
  (args : Args) (w : World) (exe : string) :
  (forall o cmd, exists e, fst (subprocess_run P o cmd) = Launch_failed e) ->
  folder_ok P (os w) args ->
  fst (find_soffice P (soffice args) w) = Return exe ->
  collect (os w) (root_of P (os w) args) (recursive args) <> [] ->
  let files := collect (os w) (root_of P (os w) args) (recursive args) in
  exists w' evs dt,
    main P args w = (Return tt, w') /\
    trace w' = trace w ++ evs /\
    Trace.spawns evs = map (command P exe) files /\
    last evs (Ev_print Stdout Msg_rule) =
      Ev_print Stdout (Msg_done 0 (length files) (length files) dt).
Proof.
  intros Hfail Hok Hexe Hsome files. apply find_soffice_returns in Hexe.
  rewrite (main_run P args w exe Hok Hexe). fold files.
  destruct (outcomes_cannot_launch exe files Hfail (os w)) as [Ht Hf].
  destruct (find_soffice_events_read P (os w) (soffice args))
    as [_ [_ [_ [Hsp _]]]].
  destruct files as [|f rest] eqn:Hfiles; [exfalso; exact (Hsome Hfiles)|].
  do 3 eexists. split; [reflexivity|]. cbn [trace]. split; [reflexivity|].
  destruct (loop_events_read P exe (length (f :: rest)) (f :: rest) 1 (os w))
    as [Hs _].
  unfold run_events. fold files. rewrite Hfiles.
  split.
  - autorewrite with trace. rewrite Hsp, Hs. cbn [Trace.spawns flat_map app].
    now rewrite app_nil_r.
  - rewrite Ht, Hf. rewrite !app_assoc. apply last_two.
Qed.

End Main_properties.

(* ===================================================================== *)
(** ** More facts about names and suffixes *)
(* ===================================================================== *)

Lemma lower_ascii_dot (a : ascii) :
  Ascii.eqb (Py.lower_ascii a) "." = Ascii.eqb a ".".
Proof.
  destruct a as [[] [] [] [] [] [] [] []]; reflexivity.
Qed.

Lemma rfind_from_lower (s : string) :
  forall i last,
    Py.rfind_from "." (Py.lower s) i last = Py.rfind_from "." s i last.
Proof.
  induction s as [|a s IH]; intros i last; [reflexivity|].
  cbn [Py.lower Py.rfind_from]. now rewrite lower_ascii_dot, IH.
Qed.

Lemma length_lower (s : string) : String.length (Py.lower s) = String.length s.
Proof. induction s as [|a s IH]; simpl; [reflexivity | now rewrite IH]. Qed.

Lemma drop_lower (n : nat) :
  forall s, Py.drop n (Py.lower s) = Py.lower (Py.drop n s).
Proof.
  induction n as [|n IH]; intros [|a s]; simpl; auto.
Qed.

Lemma lower_app (s t : string) :
  Py.lower (s ++ t) = (Py.lower s ++ Py.lower t)%string.
Proof. induction s as [|a s IH]; simpl; [reflexivity | now rewrite IH]. Qed.

Lemma take_drop (n : nat) :
  forall s, (Py.take n s ++ Py.drop n s)%string = s.
Proof.
  induction n as [|n IH]; intros [|a s]; simpl; try reflexivity.
  now rewrite IH.
Qed.

(** Lowering a name and taking its suffix commute: a dot stays a dot and
    no letter becomes one. *)
Lemma suffix_of_name_lower (nm : string) :
  PurePath.suffix_of_name (Py.lower nm) = Py.lower (PurePath.suffix_of_name nm).
Proof.
  unfold PurePath.suffix_of_name, Py.rfind, Py.len.
  rewrite rfind_from_lower, length_lower.
  destruct (_ && _)%bool; [apply drop_lower | reflexivity].
Qed.

(** A name that ends in a recognized extension after a non-empty stem has
    that extension as its suffix. *)
Lemma suffix_of_name_ext (stem ext : string) :
  stem <> "" ->
  ext = ".ppt" \/ ext = ".pptx" ->
  PurePath.suffix_of_name (stem ++ ext) = ext.
Proof.
  intros Hs Hext. unfold PurePath.suffix_of_name.
  assert (Hr : Py.rfind "." (stem ++ ext) = Py.len stem).
  { unfold Py.rfind. rewrite rfind_from_app.
    destruct Hext as [-> | ->]; reflexivity. }
  rewrite Hr.
  assert (Hlen : (0 < Py.len stem)%Z).
  { unfold Py.len. destruct stem; [congruence | simpl; lia]. }
  assert (Hcond : ((0 <? Py.len stem) &&
                   (Py.len stem <? Py.len (stem ++ ext) - 1))%Z = true).
  { apply andb_true_iff. split; apply Z.ltb_lt; [exact Hlen|].
    unfold Py.len in *. rewrite string_length_app.
    destruct Hext as [-> | ->]; simpl; lia. }
  rewrite Hcond. unfold Py.len. rewrite Nat2Z.id. apply drop_app_length.
Qed.

(** A name with a suffix is a non-empty stem followed by the suffix. *)
Lemma suffix_of_name_split (nm : string) :
  PurePath.suffix_of_name nm <> "" ->
  exists stem,
    stem <> "" /\ nm = (stem ++ PurePath.suffix_of_name nm)%string.
Proof.
  unfold PurePath.suffix_of_name.
  destruct ((0 <? Py.rfind "." nm) && (Py.rfind "." nm <? Py.len nm - 1))%Z
    eqn:Hc; [|congruence].
  intros _. apply andb_true_iff in Hc. destruct Hc as [H0 H1].
  apply Z.ltb_lt in H0. apply Z.ltb_lt in H1. unfold Py.len in H1.
  exists (Py.take (Z.to_nat (Py.rfind "." nm)) nm). split.
  - apply take_nonempty; [lia|]. destruct nm; [simpl in H1; lia | discriminate].
  - symmetry. apply take_drop.
Qed.

(** The lowered name of a recognized path: a non-empty stem, then ".ppt"
    or ".pptx". *)
Lemma recognized_name (p : Path) :
  recognized p <->
  exists stem,
    stem <> "" /\
    (Py.lower (PurePath.name p) = (stem ++ ".ppt")%string \/
     Py.lower (PurePath.name p) = (stem ++ ".pptx")%string).
Proof.
  unfold recognized, PurePath.suffix. split.
  - intros Hrec.
    destruct (suffix_of_name_split (PurePath.name p)) as [stem [Hstem Hsplit]].
    { intros Hempty. rewrite Hempty in Hrec. destruct Hrec; discriminate. }
    exists (Py.lower stem). split.
    + destruct stem; [congruence | discriminate].
    + rewrite Hsplit at 1. rewrite lower_app at 1.
      rewrite Hsplit at 2. rewrite lower_app.
      destruct Hrec as [-> | ->]; [left | right]; reflexivity.
  - intros [stem [Hstem Hname]].
    rewrite <- suffix_of_name_lower.
    destruct Hname as [-> | ->]; [left | right];
      apply suffix_of_name_ext; auto.
Qed.

(** *** [str.strip()] and blank strings *)

Lemma prefix_split (w : string) :
  forall s, String.prefix w s = true ->
            s = (w ++ Py.drop (String.length w) s)%string.
Proof.
  induction w as [|a w IH]; intros s Hp; [now destruct s|].
  destruct s as [|c s]; [discriminate|]. cbn [String.prefix] in Hp.
  destruct (ascii_dec a c) as [<- | Hne]; [|discriminate].
  cbn [append String.length Py.drop]. f_equal. now apply IH.
Qed.

Lemma strip_one_sound (ws : list string) (s r : string) :
  Py.strip_one ws s = Some r -> exists w, In w ws /\ s = (w ++ r)%string.
Proof.
  induction ws as [|w ws IH]; cbn [Py.strip_one]; [discriminate|].
  destruct (String.prefix w s) eqn:Hp.
  - intros [= <-]. exists w. split; [now left | now apply prefix_split].
  - intros H. destruct (IH H) as [w' [Hin Heq]]. exists w'. split; [now right | exact Heq].
Qed.

Lemma whitespace_nonempty (w : string) :
  In w Py.whitespace -> 1 <= String.length w.
Proof.
  intros Hin. unfold Py.whitespace in Hin. cbn [map In] in Hin.
  repeat (destruct Hin as [<- | Hin]; [cbn; lia|]). contradiction.
Qed.

Lemma strip_one_whitespace (w s : string) :
  In w Py.whitespace -> Py.strip_one Py.whitespace (w ++ s) = Some s.
Proof.
  intros Hin. unfold Py.whitespace in Hin. cbn [map In] in Hin.
  repeat (destruct Hin as [<- | Hin]; [destruct s; reflexivity|]).
  contradiction.
Qed.

Lemma blank_app (a b : string) :
  Report.blank a -> Report.blank b -> Report.blank (a ++ b).
Proof.
  intros Ha Hb. induction Ha as [|w s Hw Hs IH]; [exact Hb|].
  replace ((w ++ s) ++ b)%string with (w ++ (s ++ b))%string.
  - now constructor.
  - clear. induction w as [|c w IH]; simpl; [reflexivity | now rewrite IH].
Qed.

(** What [lstrip] removes is blank. *)
Lemma lstrip_upto_split (n : nat) :
  forall s, exists pre,
    Report.blank pre /\ s = (pre ++ Py.lstrip_upto n s)%string.
Proof.
  induction n as [|n IH]; intros s; cbn [Py.lstrip_upto].
  - exists "". split; [constructor | reflexivity].
  - destruct (Py.strip_one Py.whitespace s) as [r|] eqn:Hone.
    + destruct (strip_one_sound _ _ _ Hone) as [w [Hw ->]].
      destruct (IH r) as [pre [Hpre Hr]].
      exists (w ++ pre)%string. split; [now constructor|].
      rewrite Hr at 1. clear.
      induction w as [|c w IH]; simpl; [reflexivity | now rewrite IH].
    + exists "". split; [constructor | reflexivity].
Qed.

Lemma lstrip_upto_blank (s : string) :
  Report.blank s ->
  forall n, String.length s <= n -> Py.lstrip_upto n s = "".
Proof.
  induction 1 as [|w s Hw Hs IH]; intros n Hn.
  - destruct n; reflexivity.
  - pose proof (whitespace_nonempty w Hw) as Hlen.
    rewrite string_length_app in Hn. destruct n as [|n]; [lia|].
    cbn [Py.lstrip_upto]. rewrite (strip_one_whitespace w s Hw).
    apply IH. lia.
Qed.

Lemma lstrip_empty (s : string) : Py.lstrip s = "" <-> Report.blank s.
Proof.
  unfold Py.lstrip. split.
  - intros He. destruct (lstrip_upto_split (String.length s) s) as [pre [Hpre Hs]].
    rewrite He in Hs. rewrite Hs. apply blank_app; [exact Hpre | constructor].
  - intros Hb. now apply lstrip_upto_blank.
Qed.

Lemma rstrip_empty (s : string) : Py.rstrip s = "" <-> Py.lstrip s = "".
Proof.
  destruct s as [|c s]; [split; reflexivity|]. cbn [Py.rstrip].
  destruct (String.eqb_spec (Py.lstrip (String c s)) "") as [He | Hne].
  - split; auto.
  - split; [discriminate | intros H; congruence].
Qed.

(** [s.strip()] is empty exactly when [s] holds white space only. *)
Lemma strip_empty (s : string) : Py.strip s = "" <-> Report.blank s.
Proof.
  unfold Py.strip. rewrite rstrip_empty, lstrip_empty. split.
  - intros Hb. unfold Py.lstrip in Hb.
    destruct (lstrip_upto_split (String.length s) s) as [pre [Hpre Hs]].
    rewrite Hs. now apply blank_app.
  - intros Hb. apply lstrip_empty in Hb. rewrite Hb. constructor.
Qed.

Lemma recognized_has_name (p : Path) : recognized p -> PurePath.name p <> "".
Proof.
  intros Hrec Hname. unfold recognized, PurePath.suffix in Hrec.
  rewrite Hname in Hrec. destruct Hrec; discriminate.
Qed.


(* ===================================================================== *)
(** ** Further properties of [collect_files], [convert_file] and
       [find_soffice] *)
(* ===================================================================== *)

Lemma In_collect (o : OS) (root : Path) (recursive : bool) (p : Path) :
  In p (collect o root recursive) <->
  Fs.is_file o p = true /\ recognized p /\ within root recursive p.
Proof.
  unfold collect, within, recognized.
  destruct recursive; rewrite filter_In, andb_true_iff, in_exts.
  - split.
    + intros [Hin [Hfile Hext]]. apply In_rglob in Hin. auto.
    + intros [Hfile [Hext [ns [Hne ->]]]]. repeat split; auto.
      apply rglob_In; [exact Hne | now apply is_file_exists].
  - rewrite In_glob. split.
    + intros [[n [-> _]] [Hfile Hext]]. repeat split; auto. now exists n.
    + intros [Hfile [Hext [n ->]]]. repeat split; auto.
      exists n. split; [reflexivity | now apply is_file_exists].
Qed.

(** X8. A path is collected exactly when it is a file under the root
    (directly, or at any depth with the recursive flag) whose name, put in
    lower case, is a non-empty stem followed by ".ppt" or ".pptx": the case
    of the letters does not matter, inner dots do not matter, and a name
    that is only the extension (".ppt") is not collected. *)
Theorem collect_files_by_lowered_name
  (o : OS) (root : Path) (recursive : bool) (p : Path) :
  In p (collect o root recursive) <->
  Fs.is_file o p = true /\
  within root recursive p /\
  exists stem,
    stem <> "" /\
    (Py.lower (PurePath.name p) = (stem ++ ".ppt")%string \/
     Py.lower (PurePath.name p) = (stem ++ ".pptx")%string).
Proof.
  rewrite In_collect, recognized_name. tauto.
Qed.

(** X9. Whatever the non-recursive collection returns, the recursive
    collection of the same root returns too. *)
Theorem collect_files_recursive_superset (o : OS) (root : Path) (p : Path) :
  In p (collect o root false) -> In p (collect o root true).
Proof.
  rewrite !In_collect. intros [Hfile [Hrec [n ->]]].
  repeat split; auto. exists [n]. split; [discriminate | reflexivity].
Qed.

Section Conversion_properties.

Context (P : Platform).

(** X12. Every collected path can be handed to [convert_file]: it has a
    name, so [with_suffix(".pdf")] does not raise, and the PDF looked for
    lies in the same directory and is a path other than the input. *)
Theorem collected_file_has_pdf_target
  (o : OS) (root : Path) (recursive : bool) (p : Path) :
  In p (collect o root recursive) ->
  exists q,
    PurePath.with_suffix (path_repr P) p ".pdf" = inr q /\
    PurePath.parent q = PurePath.parent p /\
    PurePath.suffix q = ".pdf" /\
    q <> p.
Proof.
  intros Hin. apply In_collect in Hin. destruct Hin as [_ [Hrec _]].
  destruct (with_suffix_pdf (path_repr P) p (recognized_has_name p Hrec))
    as [q [Hq [Hparent [_ [Hsfx _]]]]].
  exists q. repeat split; try assumption.
  intros ->. unfold recognized in Hrec. rewrite Hsfx in Hrec.
  destruct Hrec; discriminate.
Qed.

(** X13. The message of a conversion whose process was started: the
    standard output of the process, stripped, unless it holds white space
    only (ASCII or Unicode white space, or nothing at all), and then its
    standard error, stripped. *)
Theorem convert_file_message
  (exe : string) (fpath : Path) (w : World)
  (res : CompletedProcess) (o' : OS) :
  PurePath.name fpath <> "" ->
  subprocess_run P (os w) (command P exe fpath) = (Completed res, o') ->
  exists ok msg w',
    convert_file P exe fpath w = (Return (ok, msg), w') /\
    (Report.blank (stdout res) -> msg = Py.strip (stderr res)) /\
    (~ Report.blank (stdout res) ->
     msg = Py.strip (stdout res) /\ msg <> "").
Proof.
  intros Hname Hrun.
  destruct (with_suffix_pdf (path_repr P) fpath Hname) as [q [Hq _]].
  rewrite convert_file_run, Hrun. cbn [fst snd conversion_outcome]. rewrite Hq.
  do 3 eexists. split; [reflexivity|]. unfold Py.or_str. split.
  - intros Hb. apply strip_empty in Hb. rewrite Hb. reflexivity.
  - intros Hnb.
    destruct (Py.truthy (Py.strip (stdout res))) eqn:Ht.
    + split; [reflexivity | now apply truthy_true].
    + apply truthy_false, strip_empty in Ht. contradiction.
Qed.

(** X14. On a path without a name (the root directory, the working
    directory) [convert_file] still spawns the process, then fails with
    the text of the [ValueError] of [with_suffix], whatever the process
    did. *)
Theorem convert_file_nameless_path
  (exe : string) (fpath : Path) (w : World)
  (res : CompletedProcess) (o' : OS) :
  PurePath.name fpath = "" ->
  subprocess_run P (os w) (command P exe fpath) = (Completed res, o') ->
  convert_file P exe fpath w =
  (Return (false, (path_repr P fpath ++ " has an empty name")%string),
   mkWorld o' (trace w ++ [Ev_call (Call_convert_file exe fpath);
                           Ev_spawn (command P exe fpath)])).
Proof.
  intros Hname Hrun. rewrite convert_file_run, Hrun.
  cbn [fst snd conversion_outcome]. unfold PurePath.with_suffix.
  rewrite Hname. reflexivity.
Qed.

(** X15. [find_soffice] prints nothing on the standard output and spawns
    nothing; it writes to the diagnostic stream exactly when the user path
    is a non-empty string that does not exist, and then only the
    warning. *)
Theorem find_soffice_output (user_path : option string) (w : World) :
  exists r w' evs,
    find_soffice P user_path w = (r, w') /\
    trace w' = trace w ++ evs /\
    Trace.printed Stdout evs = [] /\
    Trace.spawns evs = [] /\
    (Trace.printed Stderr evs = [] \/
     exists up, Trace.printed Stderr evs = [Msg_provided_not_found up]) /\
    (Trace.printed Stderr evs <> [] <->
     exists up,
       user_path = Some up /\ up <> "" /\
       Fs.exists_ (os w) (parse_path P up) = false).
Proof.
  rewrite find_soffice_run. do 3 eexists. split; [reflexivity|]. cbn [trace].
  split; [reflexivity|].
  destruct (find_soffice_events_read P (os w) user_path)
    as [_ [_ [_ [Hsp _]]]].
  rewrite find_soffice_events_stdout, Hsp.
  split; [reflexivity|]. split; [reflexivity|].
  unfold find_soffice_events. destruct user_path as [up|].
  - destruct (Py.truthy up) eqn:Ht; cbn [andb].
    + destruct (Fs.exists_ (os w) (parse_path P up)) eqn:Hex; cbn [negb].
      * split; [left; reflexivity|]. split; [intros H; now contradiction H|].
        intros [s [[= <-] [_ H]]]. congruence.
      * split; [right; now exists up|]. split; [|discriminate].
        intros _. exists up. apply truthy_true in Ht. auto.
    + split; [left; reflexivity|]. split; [intros H; now contradiction H|].
      intros [s [[= <-] [Hne _]]]. apply truthy_false in Ht. congruence.
  - split; [left; reflexivity|]. split; [intros H; now contradiction H|].
    intros [s [[=] _]].
Qed.

End Conversion_properties.

(** A recognized extension, in any case of letters, after a non-empty
    stem is the suffix of the name. *)
Lemma suffix_of_name_any_case (stem ext : string) :
  stem <> "" ->
  Py.lower ext = ".ppt" \/ Py.lower ext = ".pptx" ->
  PurePath.suffix_of_name (stem ++ ext) = ext.
Proof.
  intros Hs Hext. unfold PurePath.suffix_of_name.
  assert (Hr : Py.rfind "." (stem ++ ext) = Py.len stem).
  { unfold Py.rfind. rewrite <- rfind_from_lower, lower_app, rfind_from_app.
    unfold Py.len. rewrite length_lower.
    destruct Hext as [-> | ->]; reflexivity. }
  rewrite Hr.
  assert (Hlen : (0 < Py.len stem)%Z).
  { unfold Py.len. destruct stem; [congruence | simpl; lia]. }
  assert (Hext_len : 4 <= String.length ext).
  { rewrite <- length_lower. destruct Hext as [-> | ->]; simpl; lia. }
  assert (Hcond : ((0 <? Py.len stem) &&
                   (Py.len stem <? Py.len (stem ++ ext) - 1))%Z = true).
  { apply andb_true_iff. split; apply Z.ltb_lt; [exact Hlen|].
    unfold Py.len in *. rewrite string_length_app. lia. }
  rewrite Hcond. unfold Py.len. rewrite Nat2Z.id. apply drop_app_length.
Qed.

(** X16. The PDF [convert_file] looks for depends on the directory and
    the stem only: [stem.ppt], [stem.pptx] and any other spelling of the
    two extensions in one directory all have the target [stem.pdf] of that
    directory. *)
Theorem pdf_target_of_recognized_name
  (repr : Path -> string) (dir : Path) (stem ext : string) :
  stem <> "" ->
  Py.lower ext = ".ppt" \/ Py.lower ext = ".pptx" ->
  PurePath.with_suffix repr (PurePath.child dir (stem ++ ext)) ".pdf" =
  inr (PurePath.child dir (stem ++ ".pdf")).
Proof.
  intros Hs Hext. unfold PurePath.with_suffix.
  cbn [Py.contains Ascii.eqb Bool.eqb orb].
  cbn [Py.truthy String.eqb Ascii.eqb Bool.eqb String.prefix negb andb orb].
  rewrite name_child.
  assert (Hname : Py.truthy (stem ++ ext) = true).
  { apply truthy_true. destruct stem; [congruence | discriminate]. }
  rewrite Hname. cbn [negb].
  unfold PurePath.stem_of_name. rewrite (suffix_of_name_any_case stem ext Hs Hext).
  assert (Htr : Py.truthy ext = true).
  { apply truthy_true. intros ->. destruct Hext; discriminate. }
  rewrite Htr, string_length_app.
  replace (String.length stem + String.length ext - String.length ext)
    with (String.length stem) by lia.
  rewrite take_app_length.
  unfold PurePath.child. cbn [absolute parts].
  now rewrite removelast_last.
Qed.

(* ===================================================================== *)
(** ** The further properties on the POSIX platform *)
(* ===================================================================== *)

(** X2 on the three presentations of [/docs]. *)
Lemma main_spawns_one_process_per_file_witness :
  exists r w' evs,
    main Posix.office (mkArgs "/docs" false None) (Posix.boot Posix.machine)
      = (r, w') /\
    trace w' = [] ++ evs /\
    Trace.collections evs = [(mkPath true ["docs"], false)] /\
    Trace.spawns evs =
      [["/usr/bin/soffice"; "--headless"; "--convert-to"; "pdf"; "--outdir";
        "/docs"; "/docs/a.pptx"];
       ["/usr/bin/soffice"; "--headless"; "--convert-to"; "pdf"; "--outdir";
        "/docs"; "/docs/b.ppt"];
       ["/usr/bin/soffice"; "--headless"; "--convert-to"; "pdf"; "--outdir";
        "/docs"; "/docs/old.ppt"]].
Proof.
  apply (main_spawns_one_process_per_file Posix.office
           (mkArgs "/docs" false None) (Posix.boot Posix.machine) Posix.exe).
  - split; reflexivity.
  - reflexivity.
Defined.

(** X3 on the empty folder. *)
Lemma main_nothing_found_banner_only_witness :
  exists w' evs,
    main Posix.office (mkArgs "/empty" true None) (Posix.boot Posix.machine)
      = (Raise (SystemExit 0), w') /\
    os w' = Posix.machine /\
    trace w' = [] ++ evs /\
    Trace.printed Stdout evs = [Msg_found 0 (mkPath true ["empty"]) true] /\
    Trace.spawns evs = [] /\
    Trace.conversions evs = [].
Proof.
  apply (main_nothing_found_banner_only Posix.office
           (mkArgs "/empty" true None) (Posix.boot Posix.machine) Posix.exe).
  - split; reflexivity.
  - reflexivity.
  - reflexivity.
Defined.

(** X4 where the user path is missing and two conversions fail. *)
Lemma main_failures_reported_on_stdout_witness :
  exists r w' evs,
    main Posix.mute (mkArgs "/docs" false (Some "/opt/lo/soffice"))
         (Posix.boot Posix.machine) = (r, w') /\
    trace w' = [] ++ evs /\
    (Trace.printed Stderr evs = [] \/
     exists up,
       Some "/opt/lo/soffice" = Some up /\
       Trace.printed Stderr evs = [Msg_provided_not_found up]) /\
    Report.details evs =
      ["Error: source file could not be loaded";
       "Error: source file could not be loaded"] /\
    length (Report.details evs) = 2.
Proof.
  apply (main_failures_reported_on_stdout Posix.mute
           (mkArgs "/docs" false (Some "/opt/lo/soffice"))
           (Posix.boot Posix.machine) Posix.exe).
  - split; reflexivity.
  - reflexivity.
Defined.

(** X5 on a recursive run over four files. *)
Lemma main_progress_lines_numbered_witness :
  exists r w' evs,
    main Posix.office (mkArgs "/docs" true None) (Posix.boot Posix.machine)
      = (r, w') /\
    trace w' = [] ++ evs /\
    Report.announced evs =
      [(1, 4, "a.pptx"); (2, 4, "b.ppt"); (3, 4, "old.ppt"); (4, 4, "d.PPTX")].
Proof.
  apply (main_progress_lines_numbered Posix.office
           (mkArgs "/docs" true None) (Posix.boot Posix.machine) Posix.exe).
  - split; reflexivity.
  - reflexivity.
Defined.

(** X6: an external program that writes nothing leaves the tree as it was. *)
Lemma main_preserves_what_processes_preserve_witness :
  fs (os (snd (main Posix.mute (mkArgs "/docs" true None)
                    (Posix.boot Posix.machine)))) = fs Posix.machine.
Proof.
  apply (main_preserves_what_processes_preserve Posix.mute
           (fun o => fs o = fs Posix.machine)
           (mkArgs "/docs" true None) (Posix.boot Posix.machine)).
  - intros o cmd Ho. exact Ho.
  - reflexivity.
Defined.

(** X7 where the external program cannot be started; [old.pdf] is on disk. *)
Lemma main_cannot_launch_all_fail_witness :
  exists w' evs dt,
    main Posix.locked (mkArgs "/docs" false None) (Posix.boot Posix.machine)
      = (Return tt, w') /\
    trace w' = [] ++ evs /\
    Trace.spawns evs =
      map (command Posix.locked Posix.exe)
          [Posix.a_pptx; Posix.b_ppt; Posix.old_ppt] /\
    last evs (Ev_print Stdout Msg_rule) = Ev_print Stdout (Msg_done 0 3 3 dt).
Proof.
  apply (main_cannot_launch_all_fail Posix.locked
           (mkArgs "/docs" false None) (Posix.boot Posix.machine) Posix.exe).
  - intros o cmd. eexists. reflexivity.
  - split; reflexivity.
  - reflexivity.
  - discriminate.
Defined.

(** X9 on [b.ppt]. *)
Lemma collect_files_recursive_superset_witness :
  In Posix.b_ppt (collect Posix.machine (mkPath true ["docs"]) true).
Proof.
  apply (collect_files_recursive_superset Posix.machine (mkPath true ["docs"])
           Posix.b_ppt).
  right. left. reflexivity.
Defined.

(** X12 on the presentation two levels down. *)
Lemma collected_file_has_pdf_target_witness :
  exists q,
    PurePath.with_suffix Posix.repr Posix.d_PPTX ".pdf" = inr q /\
    PurePath.parent q = PurePath.parent Posix.d_PPTX /\
    PurePath.suffix q = ".pdf" /\
    q <> Posix.d_PPTX.
Proof.
  apply (collected_file_has_pdf_target Posix.office Posix.machine
           (mkPath true ["docs"]) true Posix.d_PPTX).
  do 3 right. left. reflexivity.
Defined.

(** X13 where the standard output is empty. *)
Lemma convert_file_message_witness :
  exists ok msg w',
    convert_file Posix.mute Posix.exe Posix.a_pptx
      (mkWorld Posix.machine []) = (Return (ok, msg), w') /\
    (Report.blank "" -> msg = "Error: source file could not be loaded") /\
    (~ Report.blank "" ->
     msg = "" /\ msg <> "").
Proof.
  apply (convert_file_message Posix.mute Posix.exe Posix.a_pptx
           (Posix.boot Posix.machine)
           (mkCompleted 0 "" "Error: source file could not be loaded")
           (mkOS (fs Posix.machine) (cwd Posix.machine)
                 (clock Posix.machine + 1)%Q)).
  - discriminate.
  - reflexivity.
Defined.

(** A no-break space followed by a line feed is blank. *)
Example nbsp_is_blank : Py.strip (Py.utf8 [194; 160; 10]) = "".
Proof. reflexivity. Qed.

(** X14 on the root directory. *)
Lemma convert_file_nameless_path_witness :
  convert_file Posix.mute Posix.exe (mkPath true []) (Posix.boot Posix.machine) =
  (Return (false, "PosixPath('/') has an empty name"),
   mkWorld (mkOS (fs Posix.machine) (cwd Posix.machine)
                 (clock Posix.machine + 1)%Q)
           [Ev_call (Call_convert_file Posix.exe (mkPath true []));
            Ev_spawn ["/usr/bin/soffice"; "--headless"; "--convert-to"; "pdf";
                      "--outdir"; "/"; "/"]]).
Proof.
  apply (convert_file_nameless_path Posix.mute Posix.exe (mkPath true [])
           (Posix.boot Posix.machine)
           (mkCompleted 0 "" "Error: source file could not be loaded")).
  - reflexivity.
  - reflexivity.
Defined.

(** X16 on a name with an inner dot and mixed case. *)
Lemma pdf_target_of_recognized_name_witness :
  PurePath.with_suffix Posix.repr (mkPath true ["docs"; "talk.v2.PpTx"]) ".pdf" =
  inr (mkPath true ["docs"; "talk.v2.pdf"]).
Proof.
  apply (pdf_target_of_recognized_name Posix.repr (mkPath true ["docs"])
           "talk.v2" ".PpTx").
  - discriminate.
  - right. reflexivity.
Defined.
